(** * Final_Exercise.py: the YOLO label loader and its directory script

    A shallow embedding of [src/Practices/Final_Exercise.py]: the function
    [load_yolo_labels] and the module-level loop over [os.listdir], together
    with the parts of the Python runtime they call ([str.strip], [str.split],
    [int], [float], [open], [os.listdir], [str.endswith], [os.path.join]).

    Conventions of the embedding.
    - Text is ASCII: a Python [str] is a Rocq [string], one character per
      byte below 128.
    - A Python exception is a constructor of [exn]; an expression that may
      raise has type [result A].
    - A Python [float] is the IEEE binary64 number itself, kept as the exact
      rational it denotes, so that equality of model values is equality of
      the Python floats ([0.0] and [-0.0] are kept apart by a sign flag).
    - The file system is a finite map from paths to nodes.

    The functions of [Error_Handling_Practice.py] and [Logging_Practice.py]
    follow, in the modules [ErrorHandling] and [Logging], over the values
    and the arithmetic of the module [Dyn]. *)

From Stdlib Require Import ZArith QArith Ascii String List Bool Lia.
From stdpp Require Import base option list strings gmap sorting.

Local Open Scope string_scope.
Local Open Scope list_scope.

(** ** Exceptions and results *)

Module Py.

(** The exceptions the program can meet. *)
Inductive exn : Type :=
  | FileNotFoundError
  | IsADirectoryError
  | NotADirectoryError
  | PermissionError
  | ValueError
  | IndexError.

(** The outcome of evaluating an expression: a value, or a raised
    exception that unwinds to the caller. *)
Inductive result (A : Type) : Type :=
  | Return (a : A)
  | Raise (e : exn).

Arguments Return {A} a.
Arguments Raise {A} e.

Definition bind {A B : Type} (m : result A) (k : A -> result B) : result B :=
  match m with
  | Return a => k a
  | Raise e => Raise e
  end.

Declare Scope py_scope.
Delimit Scope py_scope with py.
Notation "'let*' x ':=' m 'in' k" := (bind m (fun x => k))
  (at level 10, x name, m at level 100, k at level 200) : py_scope.

Local Open Scope py_scope.

Definition returns {A : Type} (m : result A) : bool :=
  match m with Return _ => true | Raise _ => false end.

(** ** Characters and strings *)

(** [str.isspace] on an ASCII character: tab, line feed, vertical tab, form
    feed, carriage return, the four separators 0x1c-0x1f, and space. *)
Definition isspace (c : ascii) : bool :=
  let n := nat_of_ascii c in
  (((9 <=? n) && (n <=? 13)) || ((28 <=? n) && (n <=? 31)) || (n =? 32))%nat.

Fixpoint lstrip (s : string) : string :=
  match s with
  | String c s' => if isspace c then lstrip s' else s
  | EmptyString => EmptyString
  end.

Fixpoint rev_append (s acc : string) : string :=
  match s with
  | String c s' => rev_append s' (String c acc)
  | EmptyString => acc
  end.

Definition rev (s : string) : string := rev_append s EmptyString.

Definition rstrip (s : string) : string := rev (lstrip (rev s)).

(** [s.strip()] *)
Definition strip (s : string) : string := rstrip (lstrip s).

(** The truth value of a string: [not s] holds exactly for the empty one. *)
Definition truthy (s : string) : bool :=
  match s with EmptyString => false | String _ _ => true end.

(** [s.split()]: the maximal runs of non-space characters, in order.
    [cur] holds the run being read, reversed. *)
Definition flush (cur : string) (k : list string) : list string :=
  match cur with
  | EmptyString => k
  | String _ _ => rev cur :: k
  end.

Fixpoint split_from (cur s : string) : list string :=
  match s with
  | String c s' =>
      if isspace c then flush cur (split_from EmptyString s')
      else split_from (String c cur) s'
  | EmptyString => flush cur []
  end.

Definition split (s : string) : list string := split_from EmptyString s.

(** [s.endswith(suffix)] *)
Definition endswith (s suffix : string) : bool :=
  String.prefix (rev suffix) (rev s).

(** [parts[i]] on a list: [IndexError] when [i] is out of range (only
    non-negative indices occur in the program). *)
Definition getitem {A : Type} (l : list A) (i : nat) : result A :=
  match l !! i with
  | Some a => Return a
  | None => Raise IndexError
  end.

(** ** Numbers *)

Definition digit_of (c : ascii) : option Z :=
  let n := nat_of_ascii c in
  if ((48 <=? n) && (n <=? 57))%nat then Some (Z.of_nat (n - 48)) else None.

Definition isdigit (c : ascii) : bool :=
  match digit_of c with Some _ => true | None => false end.

(** A leading sign, as [int] and [float] accept it. *)
Definition sign (s : string) : bool * string :=
  match s with
  | String "+" s' => (false, s')
  | String "-" s' => (true, s')
  | _ => (false, s)
  end.

(** The longest prefix of [s] that is a run of decimal digits in which
    single underscores may separate digits. Returns the value read on top of
    [acc], the number of digits read on top of [cnt], and what is left. *)
Fixpoint digitpart (acc : Z) (cnt : nat) (s : string) : Z * nat * string :=
  match s with
  | String c s' =>
      match digit_of c with
      | Some d => digitpart (10 * acc + d) (S cnt) s'
      | None =>
          match cnt, c, s' with
          | S _, "_"%char, String c' _ =>
              if isdigit c' then digitpart acc cnt s' else (acc, cnt, s)
          | _, _, _ => (acc, cnt, s)
          end
      end
  | EmptyString => (acc, cnt, s)
  end.

(** CPython's default cap on the number of digits [int] converts. *)
Definition max_str_digits : nat := 4300.

(** [int(s)] for a string [s], base ten: surrounding white space, a sign,
    then digits; anything else is a [ValueError]. *)
Definition int (s : string) : result Z :=
  let '(neg, body) := sign (strip s) in
  let '(v, cnt, rest) := digitpart 0 0 body in
  match cnt, rest with
  | S _, EmptyString =>
      if (cnt <=? max_str_digits)%nat
      then Return (if neg then (- v)%Z else v)
      else Raise ValueError
  | _, _ => Raise ValueError
  end.

(** A Python float: a finite binary64 number, given by its sign and the
    exact (reduced) rational magnitude; an infinity; or a NaN. *)
Inductive pyfloat : Type :=
  | Finite (neg : bool) (q : Q)
  | Inf (neg : bool)
  | NaN.

(** Round the positive rational [n / d] to the nearest binary64 number,
    ties to even; [None] stands for overflow. *)
Definition nearest_binary64 (n d : Z) : option Q :=
  let k := (Z.log2 n - Z.log2 d)%Z in
  let k := (if n * 2 ^ Z.max 0 (- k) <? d * 2 ^ Z.max 0 k then k - 1 else k)%Z in
  let e := Z.max (k - 52) (-1074) in
  let num := (n * 2 ^ Z.max 0 (- e))%Z in
  let den := (d * 2 ^ Z.max 0 e)%Z in
  let m := (num / den)%Z in
  let r := (num mod den)%Z in
  let m := (if 2 * r <? den then m
            else if den <? 2 * r then m + 1
            else if Z.even m then m else m + 1)%Z in
  if (2 ^ 1024 <=? m * 2 ^ Z.max 0 e)%Z then None
  else Some (Qred (Qmake (m * 2 ^ Z.max 0 e) (Z.to_pos (2 ^ Z.max 0 (- e))))).

(** The float nearest to [m * 10 ^ e10], with [m >= 0]. *)
Definition float_of_decimal (neg : bool) (m e10 : Z) : pyfloat :=
  if (m =? 0)%Z then Finite neg 0
  else
    match nearest_binary64 (m * 10 ^ Z.max 0 e10) (10 ^ Z.max 0 (- e10)) with
    | Some q => Finite neg q
    | None => Inf neg
    end.

Definition lower (c : ascii) : ascii :=
  let n := nat_of_ascii c in
  if ((65 <=? n) && (n <=? 90))%nat then ascii_of_nat (n + 32) else c.

Fixpoint casefold (s : string) : string :=
  match s with
  | String c s' => String (lower c) (casefold s')
  | EmptyString => EmptyString
  end.

(** The exponent part of a float literal, read after the mantissa: nothing,
    or [e]/[E], a sign and at least one digit. *)
Definition exponent (s : string) : result Z :=
  match s with
  | EmptyString => Return 0%Z
  | String c s' =>
      if (lower c =? "e")%char then
        let '(neg, body) := sign s' in
        let '(v, cnt, rest) := digitpart 0 0 body in
        match cnt, rest with
        | S _, EmptyString => Return (if neg then (- v)%Z else v)
        | _, _ => Raise ValueError
        end
      else Raise ValueError
  end.

(** [float(s)] for a string [s]: surrounding white space, a sign, then
    [inf], [infinity] or [nan] in any case, or a decimal literal with an
    optional fraction and exponent; anything else is a [ValueError]. *)
Definition float (s : string) : result pyfloat :=
  let '(neg, body) := sign (strip s) in
  let word := casefold body in
  if (word =? "inf")%string || (word =? "infinity")%string then Return (Inf neg)
  else if (word =? "nan")%string then Return NaN
  else
    let '(ip, ic, r1) := digitpart 0 0 body in
    let '(mant, fc, r2) :=
      match r1 with
      | String "." r => digitpart ip 0 r
      | _ => (ip, 0, r1)
      end in
    match ic + fc with
    | 0 => Raise ValueError
    | S _ =>
        let* ex := exponent r2 in
        Return (float_of_decimal neg mant (ex - Z.of_nat fc))
    end.

(** [range(start, stop, step)] for a positive [step]. *)
Fixpoint range_from (n start step : nat) : list nat :=
  match n with
  | O => []
  | S n' => start :: range_from n' (start + step) step
  end.

Definition range (start stop step : nat) : list nat :=
  range_from ((stop - start + step - 1) / step) start step.

(** A list comprehension [[f(i) for i in l]] whose element expression may
    raise: elements are evaluated in order and the first exception ends the
    comprehension. *)
Fixpoint list_comp {A B : Type} (f : A -> result B) (l : list A)
  : result (list B) :=
  match l with
  | [] => Return []
  | a :: l' =>
      let* b := f a in
      let* bs := list_comp f l' in
      Return (b :: bs)
  end.

(** A [for] loop over [l] whose body updates the state [s] and may raise. *)
Fixpoint for_each {S A : Type} (body : S -> A -> result S) (s : S) (l : list A)
  : result S :=
  match l with
  | [] => Return s
  | a :: l' =>
      let* s' := body s a in
      for_each body s' l'
  end.

(** ** The file system *)

(** A node of the file system: a text file, given by the lines that
    iterating over the open file yields; a directory, given by the names
    [os.listdir] yields, in its order; or a node the process may not read. *)
Inductive node : Type :=
  | File (lines : list string)
  | Dir (entries : list string)
  | Locked.

(** [open(path, "r")], as far as the lines read are concerned. *)
Definition open_read (fs : gmap string node) (path : string)
  : result (list string) :=
  match fs !! path with
  | None => Raise FileNotFoundError
  | Some (File lines) => Return lines
  | Some (Dir _) => Raise IsADirectoryError
  | Some Locked => Raise PermissionError
  end.

(** [os.listdir(path)] *)
Definition listdir (fs : gmap string node) (path : string)
  : result (list string) :=
  match fs !! path with
  | None => Raise FileNotFoundError
  | Some (Dir entries) => Return entries
  | Some (File _) => Raise NotADirectoryError
  | Some Locked => Raise PermissionError
  end.

(** [os.path.join(a, b)] on POSIX paths. *)
Definition path_join (a b : string) : string :=
  if String.prefix "/" b then b
  else if negb (truthy a) || endswith a "/" then a ++ b
  else a ++ "/" ++ b.

End Py.

Import Py.
Local Open Scope py_scope.

Arguments int : simpl never.
Arguments float : simpl never.
Arguments strip : simpl never.
Arguments split : simpl never.

(** ** The program *)

(** One entry of the list [load_yolo_labels] returns:
    [(class_id, polygon_points)]. *)
Definition label : Type := Z * list (pyfloat * pyfloat).

(** The element expression of the comprehension at lines 28-31:
    [(float(parts[i]), float(parts[i + 1]))]. *)
Definition coord_pair (parts : list string) (i : nat)
  : result (pyfloat * pyfloat) :=
  let* a := getitem parts i in
  let* x := float a in
  let* b := getitem parts (i + 1) in
  let* y := float b in
  Return (x, y).

(** The body of the loop [for line in f] (lines 24-32), as a function of the
    list [labels] built so far. *)
Definition loop_body (labels : list label) (line : string)
  : result (list label) :=
  if negb (truthy (strip line)) then Return labels
  else
    let parts := split (strip line) in
    let* p0 := getitem parts 0 in
    let* cls_id := int p0 in
    let* coords := list_comp (coord_pair parts) (range 1 (length parts) 2) in
    Return (labels ++ [(cls_id, coords)]).

(** [load_yolo_labels(txt_path)] (lines 8-34). *)
Definition load_yolo_labels (fs : gmap string node) (txt_path : string)
  : result (list label) :=
  let labels := [] in
  let* f := open_read fs txt_path in
  for_each loop_body labels f.

(** What the module-level script prints. *)
Inductive event : Type :=
  | Loading (full_path : string)
  | Loaded (labels : list label).

Definition labels_dir : string := ".labels".

(** The loop [for txt_path in os.listdir(labels_dir)] (lines 37-42): the
    output printed so far, and how the loop ends. *)
Fixpoint script_loop (fs : gmap string node) (entries : list string)
    (out : list event) : list event * result unit :=
  match entries with
  | [] => (out, Return tt)
  | txt_path :: rest =>
      if endswith txt_path ".txt" then
        let full_path := path_join labels_dir txt_path in
        let out := out ++ [Loading full_path] in
        match load_yolo_labels fs full_path with
        | Return labels => script_loop fs rest (out ++ [Loaded labels])
        | Raise e => (out, Raise e)
        end
      else script_loop fs rest out
  end.

(** The module-level script (lines 36-42). *)
Definition script (fs : gmap string node) : list event * result unit :=
  match listdir fs labels_dir with
  | Return entries => script_loop fs entries []
  | Raise e => ([], Raise e)
  end.

(** ** The comprehension, read off the coordinate tokens

    [coords_of cs] is the value of the comprehension at lines 28-31 as a
    function of the tokens after the class id, taken two at a time. *)
Fixpoint coords_of (cs : list string) : result (list (pyfloat * pyfloat)) :=
  match cs with
  | [] => Return []
  | a :: cs' =>
      let* x := float a in
      match cs' with
      | [] => Raise IndexError
      | b :: cs'' =>
          let* y := float b in
          let* r := coords_of cs'' in
          Return ((x, y) :: r)
      end
  end.

(** Consecutive pairs of a list; a last element without a partner is
    dropped. *)
Fixpoint pairs {A : Type} (l : list A) : list (A * A) :=
  match l with
  | x :: y :: l' => (x, y) :: pairs l'
  | _ => []
  end.

(** The first and the last character of a string. *)
Definition first_char (s : string) : option ascii :=
  match s with
  | String c _ => Some c
  | EmptyString => None
  end.

Fixpoint last_char (s : string) : option ascii :=
  match s with
  | String c EmptyString => Some c
  | String _ s' => last_char s'
  | EmptyString => None
  end.

(** ** The specification's vocabulary

    The definitions of this section follow the words of the specification
    (its data model and the contract of [parseFile]); the theorems below
    compare them with the program. *)

Module Spec.

(** A coordinate is normalized: [0.0 <= x <= 1.0]. *)
Definition in_unit (x : pyfloat) : bool :=
  match x with
  | Finite false q => Qle_bool 0 q && Qle_bool q 1
  | Finite true q => Qeq_bool q 0
  | Inf _ | NaN => false
  end.

(** A line is blank when nothing but white space is on it. *)
Definition blank (line : string) : bool := negb (truthy (strip line)).

(** The parsed token values of a line: the integer of the first token and
    the floats of the others, when all of them parse. *)
Definition parsed_tokens (line : string) : option (Z * list pyfloat) :=
  match split (strip line) with
  | c :: cs =>
      match int c, list_comp float cs with
      | Return class_id, Return xs => Some (class_id, xs)
      | _, _ => None
      end
  | [] => None
  end.

(** A valid line: a non-negative integer class id followed by an even
    count, at least six, of floats each in [[0.0, 1.0]]. *)
Definition valid (line : string) : bool :=
  match parsed_tokens line with
  | Some (class_id, xs) =>
      (0 <=? class_id)%Z && Nat.even (length xs) && (6 <=? length xs)%nat
      && forallb in_unit xs
  | None => false
  end.

(** An invalid line: not blank and not valid. *)
Definition invalid (line : string) : bool :=
  negb (blank line) && negb (valid line).

(** The record of a line whose tokens parse. *)
Definition record_of (line : string) : option label :=
  match parsed_tokens line with
  | Some (class_id, xs) => Some (class_id, pairs xs)
  | None => None
  end.

(** The number of lines of a file that satisfy [p]. *)
Definition count (p : string -> bool) (lines : list string) : nat :=
  length (List.filter p lines).

End Spec.

(** The entries of a listing the script loads, and what it prints for one
    of them when the call returns [loaded name]. *)
Definition matching (entries : list string) : list string :=
  List.filter (fun name => endswith name ".txt") entries.

Definition printed (loaded : string -> list label) (name : string)
  : list event :=
  [Loading (path_join labels_dir name); Loaded (loaded name)].

(** ** Inputs of the scenarios *)

(** The floats of the specification's scenarios, as Python's
    [float.as_integer_ratio] gives them. *)
Definition f0_1 : pyfloat := Finite false (3602879701896397 # 36028797018963968).
Definition f0_2 : pyfloat := Finite false (3602879701896397 # 18014398509481984).
Definition f0_3 : pyfloat := Finite false (5404319552844595 # 18014398509481984).
Definition f0_4 : pyfloat := Finite false (3602879701896397 # 9007199254740992).
Definition f0_5 : pyfloat := Finite false (1 # 2).
Definition f0_6 : pyfloat := Finite false (5404319552844595 # 9007199254740992).
Definition f1_5 : pyfloat := Finite false (3 # 2).

Definition triangle_line : string := "0 0.1 0.2 0.3 0.4 0.5 0.6".

Definition negative_line : string := "-1 0.1 0.2 0.3 0.4 0.5 0.6".

(** A line of white space, with its line end. *)
Definition blank_line : string := String " " (String "010" "").

Definition two_triangles : list string :=
  [triangle_line; blank_line; "3 0 0 1 0 0.5 1"].

(** A file with one valid line, then a line whose class id is no number. *)
Definition mixed_file : list string :=
  [triangle_line; "abc 0.1 0.2 0.3 0.4 0.5 0.6"].

(** Files and lines of the kinds the program does not handle. *)
Definition bad_class_file : list string :=
  [triangle_line; "abc 0.1 0.2 0.3 0.4 0.5 0.6"; triangle_line].

Definition bad_coord_file : list string :=
  [triangle_line; "1 0.1 0,2 0.3 0.4 0.5 0.6"; triangle_line].

Definition odd_file : list string := ["1 0.1 0.2 0.3"; triangle_line].

Definition out_of_range_line : string := "2 0.1 0.2 1.5 0.3".

Definition single_point_line : string := "1 0.1 0.2".

(** A directory whose first label file cannot be read. *)
Definition locked_dir : gmap string node :=
  <[ ".labels" := Dir ["a.txt"; "b.txt"] ]>
  (<[ ".labels/a.txt" := Locked ]>
  (<[ ".labels/b.txt" := File [triangle_line] ]> ∅)).

(** A directory with two label files and a file of another kind. *)
Definition small_dir : gmap string node :=
  <[ ".labels" := Dir ["a.txt"; "notes.md"; "b.txt"] ]>
  (<[ ".labels/a.txt" := File [triangle_line; blank_line; "5"] ]>
  (<[ ".labels/notes.md" := File ["not a label"] ]>
  (<[ ".labels/b.txt" := File ["2 0.1 0.2 1.5 0.3"] ]> ∅))).

Definition small_dir_loaded (name : string) : list label :=
  if (name =? "a.txt")%string
  then [(0%Z, [(f0_1, f0_2); (f0_3, f0_4); (f0_5, f0_6)]); (5%Z, [])]
  else [(2%Z, [(f0_1, f0_2); (f1_5, f0_3)])].

(** A file with lines of every kind the loader takes. *)
Definition loose_file : list string :=
  [triangle_line; blank_line; "5"; out_of_range_line].

(** Two label files and the file of their lines, one after the other. *)
Definition joined_files : gmap string node :=
  <[ "a.txt" := File [triangle_line; blank_line] ]>
  (<[ "b.txt" := File ["5"; out_of_range_line] ]>
  (<[ "ab.txt" := File ([triangle_line; blank_line] ++ ["5"; out_of_range_line]) ]>
   ∅)).

(** A file and the same file without its blank lines. *)
Definition spaced_files : gmap string node :=
  <[ "spaced.txt" := File loose_file ]>
  (<[ "dense.txt" := File [triangle_line; "5"; out_of_range_line] ]> ∅).

(** A directory whose second label file has a line with a coordinate
    missing. *)
Definition broken_dir : gmap string node :=
  <[ ".labels" := Dir ["a.txt"; "notes.md"; "b.txt"; "c.txt"] ]>
  (<[ ".labels/a.txt" := File [triangle_line; blank_line; "5"] ]>
  (<[ ".labels/b.txt" := File odd_file ]>
  (<[ ".labels/c.txt" := File [triangle_line] ]> ∅))).

(** ** Lines the loader takes

    A line is well formed when its first token converts with [int] and the
    others, an even number of them, convert with [float]; the loader takes a
    line when it is blank or well formed. *)
Definition well_formed (line : string) : bool :=
  match Spec.parsed_tokens line with
  | Some (_, xs) => Nat.even (length xs)
  | None => false
  end.

Definition takes (line : string) : bool := Spec.blank line || well_formed line.

Definition nonblank (line : string) : bool := negb (Spec.blank line).

(** * The practice files: values and numbers

    [Error_Handling_Practice.py] and [Logging_Practice.py] pass integers,
    floats, strings and [None] around and divide numbers. The values, the
    further exceptions and the arithmetic of the runtime are modelled here,
    on top of [Py]. *)

Module Dyn.

(** The values of the practice files. *)
Inductive value : Type :=
  | VInt (z : Z)
  | VFloat (x : pyfloat)
  | VStr (s : string)
  | VNone.

(** The exceptions of the practice files: those of [Py], and four more. *)
Inductive exc : Type :=
  | Std (e : exn)
  | ZeroDivisionError
  | OverflowError
  | TypeError
  | KeyError.

Inductive answer (A : Type) : Type :=
  | Ok (a : A)
  | Err (e : exc).

Arguments Ok {A} a.
Arguments Err {A} e.

Definition and_then {A B : Type} (m : answer A) (k : A -> answer B)
  : answer B :=
  match m with
  | Ok a => k a
  | Err e => Err e
  end.

Declare Scope dyn_scope.
Delimit Scope dyn_scope with dyn.
Notation "'let+' x ':=' m 'in' k" := (and_then m (fun x => k))
  (at level 10, x name, m at level 100, k at level 200) : dyn_scope.

Local Open Scope dyn_scope.

Definition is_ok {A : Type} (m : answer A) : bool :=
  match m with Ok _ => true | Err _ => false end.

(** An outcome of [Py] as an outcome here. *)
Definition lift {A : Type} (m : result A) : answer A :=
  match m with
  | Return a => Ok a
  | Raise e => Err (Std e)
  end.

(** [isinstance(v, (int, float))] *)
Definition is_number (v : value) : bool :=
  match v with
  | VInt _ | VFloat _ => true
  | VStr _ | VNone => false
  end.

(** [float(z)] for an integer [z]: the nearest float, ties to even;
    [OverflowError] beyond the largest float. *)
Definition float_of_int (z : Z) : answer pyfloat :=
  match float_of_decimal (z <? 0)%Z (Z.abs z) 0 with
  | Inf _ => Err OverflowError
  | x => Ok x
  end.

(** [float(v)] *)
Definition to_float (v : value) : answer pyfloat :=
  match v with
  | VInt z => float_of_int z
  | VFloat x => Ok x
  | VStr s => lift (float s)
  | VNone => Err TypeError
  end.

(** [int(v)]: a float is cut towards zero. *)
Definition to_int (v : value) : answer Z :=
  match v with
  | VInt z => Ok z
  | VFloat (Finite neg q) =>
      let n := (Qnum q / Zpos (Qden q))%Z in
      Ok (if neg then (- n)%Z else n)
  | VFloat (Inf _) => Err OverflowError
  | VFloat NaN => Err (Std ValueError)
  | VStr s => lift (int s)
  | VNone => Err TypeError
  end.

(** [x == 0.0] on a float *)
Definition float_is_zero (x : pyfloat) : bool :=
  match x with
  | Finite _ q => Qeq_bool q 0
  | Inf _ | NaN => false
  end.

(** The quotient of two floats by IEEE 754, for a divisor that is not
    zero. *)
Definition ieee_div (x y : pyfloat) : pyfloat :=
  match x, y with
  | NaN, _ | _, NaN => NaN
  | Inf _, Inf _ => NaN
  | Inf s, Finite t _ => Inf (xorb s t)
  | Finite s _, Inf t => Finite (xorb s t) 0
  | Finite s p, Finite t q =>
      if Qeq_bool p 0 then Finite (xorb s t) 0
      else
        match nearest_binary64 (Qnum p * Zpos (Qden q))
                               (Zpos (Qden p) * Qnum q) with
        | Some r => Finite (xorb s t) r
        | None => Inf (xorb s t)
        end
  end.

(** [x / y] on floats *)
Definition float_div (x y : pyfloat) : answer pyfloat :=
  if float_is_zero y then Err ZeroDivisionError else Ok (ieee_div x y).

(** [a / b] on integers: the float nearest to the quotient. *)
Definition int_truediv (a b : Z) : answer pyfloat :=
  let neg := xorb (a <? 0)%Z (b <? 0)%Z in
  if (b =? 0)%Z then Err ZeroDivisionError
  else if (a =? 0)%Z then Ok (Finite neg 0)
  else
    match nearest_binary64 (Z.abs a) (Z.abs b) with
    | Some r => Ok (Finite neg r)
    | None => Err OverflowError
    end.

(** [a / b]: an integer next to a float is converted first. *)
Definition truediv (a b : value) : answer pyfloat :=
  match a, b with
  | VInt x, VInt y => int_truediv x y
  | VInt x, VFloat y => let+ x' := float_of_int x in float_div x' y
  | VFloat x, VInt y => let+ y' := float_of_int y in float_div x y'
  | VFloat x, VFloat y => float_div x y
  | _, _ => Err TypeError
  end.



(** [v == 0] *)
Definition eq_zero (v : value) : bool :=
  match v with
  | VInt z => (z =? 0)%Z
  | VFloat x => float_is_zero x
  | VStr _ | VNone => false
  end.

(** A list comprehension whose element expression may raise. *)
Fixpoint each {A B : Type} (f : A -> answer B) (l : list A) : answer (list B) :=
  match l with
  | [] => Ok []
  | a :: l' =>
      let+ b := f a in
      let+ bs := each f l' in
      Ok (b :: bs)
  end.

(** [s.split(sep)] for a separator of one character: the pieces between
    the separators, empty ones too. [cur] holds the piece being read,
    reversed. *)
Fixpoint split_on_from (sep : ascii) (cur s : string) : list string :=
  match s with
  | String c s' =>
      if (c =? sep)%char then rev cur :: split_on_from sep EmptyString s'
      else split_on_from sep (String c cur) s'
  | EmptyString => [rev cur]
  end.

Definition split_on (sep : ascii) (s : string) : list string :=
  split_on_from sep EmptyString s.

(** The number of occurrences of a character in a string. *)
Fixpoint count_char (c : ascii) (s : string) : nat :=
  match s with
  | String c' s' => (if (c' =? c)%char then 1 else 0) + count_char c s'
  | EmptyString => 0
  end.

(** [l.sort(reverse=True)] on integers *)
Definition sort_reverse (l : list Z) : list Z := merge_sort (flip Z.le) l.

(** [sum(l)] on integers *)
Definition sum (l : list Z) : Z := fold_right Z.add 0%Z l.

End Dyn.

Import Dyn.
Local Open Scope dyn_scope.

(** * Error_Handling_Practice.py *)

Module ErrorHandling.

(** [safe_divide(a, b)] (lines 11-12) *)
Definition safe_divide (a b : value) : answer pyfloat := truediv a b.

(** [add_two_numbers_from_list(input)] (lines 24-28) *)
Definition add_two_numbers_from_list (input : list value) : answer Z :=
  let+ first := lift (getitem input 0) in
  let+ num_1 := to_int first in
  let+ second := lift (getitem input 1) in
  let+ num_2 := to_int second in
  let result := (num_1 + num_2)%Z in
  Ok result.

(** [get_user_name(users_dict, user_id)] (lines 46-48). A user's data is a
    dictionary, or [None] when it is not stored yet. *)
Definition get_user_name (users_dict : gmap Z (option (gmap string value)))
    (user_id : Z) : answer value :=
  match users_dict !! user_id with
  | None => Err KeyError
  | Some None => Err TypeError
  | Some (Some data) =>
      match data !! "name" with
      | Some username => Ok username
      | None => Err KeyError
      end
  end.

(** [parse_scores(input_str)] (lines 60-66) *)
Definition parse_scores (input_str : string) : result (list Z) :=
  list_comp (fun x => int (strip x)) (split_on "," input_str).

(** [range[n]]: the type [range] is subscripted, not called, and a type
    that is no generic has no subscript. *)
Definition range_subscript (n : value) : answer (list nat) := Err TypeError.

(** [compute_average(scores, n)] (lines 69-72): the list [scores] as the
    call leaves it, and the outcome of the call. The function has no
    [return]; its value is [None]. *)
Definition compute_average (scores : list Z) (n : value)
  : list Z * answer value :=
  let scores := sort_reverse scores in
  (scores,
   let+ indices := range_subscript n in
   let+ selected := each (fun i => lift (getitem scores i)) indices in
   let+ avg := truediv (VInt (sum scores)) (VInt (Z.of_nat (length scores))) in
   Ok VNone).

(** What [process_student] prints. *)
Inductive printed_line : Type :=
  | AverageScore (avg : value).

(** [process_student(input_str, num_to_consider)] (lines 75-78): what is
    printed, and the outcome of the call. *)
Definition process_student (input_str : string) (num_to_consider : value)
  : list printed_line * answer value :=
  match parse_scores input_str with
  | Raise e => ([], Err (Std e))
  | Return scores =>
      match snd (compute_average scores num_to_consider) with
      | Err e => ([], Err e)
      | Ok avg => ([AverageScore avg], Ok VNone)
      end
  end.

End ErrorHandling.

(** * Logging_Practice.py *)

Module Logging.

(** What [extract_user_info] prints. *)
Inductive printed_line (A : Type) : Type :=
  | Extracting (user_id : Z)
  | Extracted (user_id : Z) (user_info : A).

Arguments Extracting {A} user_id.
Arguments Extracted {A} user_id user_info.


(** The records handed to the logger: a level and a message. *)
Inductive level : Type := INFO | ERROR.

Inductive message : Type :=
  | Processing (v : value)
  | NotANumber (v : value)
  | NegativeReceived (v : value)
  | DivisionByZero
  | Reciprocal (v : value) (r : pyfloat)
  | Division (numerator denominator r : pyfloat)
  | DivisionFailed (a b : value).

Definition record : Type := level * message.


(** The body of the [try] of [safe_divide] (lines 85-89), up to the
    division. *)
Definition divide (a b : value) : answer (pyfloat * pyfloat * pyfloat) :=
  let+ numerator := to_float a in
  let+ denominator := to_float b in
  let+ r := float_div numerator denominator in
  Ok (numerator, denominator, r).

(** [safe_divide(a, b)] (lines 83-93): [except Exception] takes every
    exception of the body. *)
Definition safe_divide (a b : value) : list record * answer (option pyfloat) :=
  match divide a b with
  | Ok (numerator, denominator, r) =>
      ([(INFO, Division numerator denominator r)], Ok (Some r))
  | Err _ => ([(ERROR, DivisionFailed a b)], Ok None)
  end.

End Logging.

(** * Properties *)

(** ** The runtime on small inputs *)

Section Runtime.

Example strip_line_end :
  strip (String "009" " 1 0.5" ++ String "013" (String "010" "")) = "1 0.5".
Proof. vm_compute; reflexivity. Qed.

Example split_runs : split (" a  b" ++ String "009" "c ") = ["a"; "b"; "c"].
Proof. vm_compute; reflexivity. Qed.

Example split_blank : split "   " = [].
Proof. vm_compute; reflexivity. Qed.

Example int_signed :
  int "-12" = Return (-12)%Z /\ int "+7" = Return 7%Z
  /\ int "1_000" = Return 1000%Z /\ int "007" = Return 7%Z.
Proof. repeat split; vm_compute; reflexivity. Qed.

Example int_rejects :
  int "" = Raise ValueError /\ int "abc" = Raise ValueError
  /\ int "1.0" = Raise ValueError /\ int "1__0" = Raise ValueError
  /\ int "5_" = Raise ValueError /\ int "-" = Raise ValueError.
Proof. repeat split; vm_compute; reflexivity. Qed.

Example float_decimals :
  float "0.1" = Return f0_1 /\ float "0.2" = Return f0_2
  /\ float "0.3" = Return f0_3 /\ float "0.4" = Return f0_4
  /\ float "0.5" = Return f0_5 /\ float "0.6" = Return f0_6
  /\ float "1.5" = Return f1_5.
Proof. repeat split; vm_compute; reflexivity. Qed.

Example float_forms :
  float "1e-1" = Return f0_1 /\ float ".5" = Return f0_5
  /\ float "5." = Return (Finite false 5) /\ float "-0" = Return (Finite true 0)
  /\ float "1_0E0" = Return (Finite false 10)
  /\ float "-Infinity" = Return (Inf true) /\ float "nan" = Return NaN.
Proof. repeat split; vm_compute; reflexivity. Qed.

(** Rounding: ties go to the even mantissa, and a literal beyond the
    largest float is an infinity. *)
Example float_rounding :
  float "9007199254740993" = Return (Finite false 9007199254740992)
  /\ float "9007199254740995" = Return (Finite false 9007199254740996)
  /\ float "1.0000000000000001" = Return (Finite false 1)
  /\ float "1e400" = Return (Inf false)
  /\ float "1e-400" = Return (Finite false 0).
Proof. repeat split; vm_compute; reflexivity. Qed.

Example float_rejects :
  float "" = Raise ValueError /\ float "." = Raise ValueError
  /\ float "0,2" = Raise ValueError /\ float "1e" = Raise ValueError
  /\ float "1._5" = Raise ValueError /\ float "0x10" = Raise ValueError.
Proof. repeat split; vm_compute; reflexivity. Qed.

Example range_odd_indices :
  range 1 1 2 = [] /\ range 1 4 2 = [1; 3] /\ range 1 7 2 = [1; 3; 5].
Proof. repeat split. Qed.

Example endswith_txt :
  endswith "a.txt" ".txt" = true /\ endswith "notes.md" ".txt" = false
  /\ endswith "txt" ".txt" = false.
Proof. repeat split. Qed.

Example path_join_labels : path_join labels_dir "a.txt" = ".labels/a.txt".
Proof. reflexivity. Qed.

End Runtime.

Section Comprehension.

Lemma two_step {A : Type} (P : list A -> Prop) :
  P [] -> (forall a, P [a]) -> (forall a b l, P l -> P (a :: b :: l)) ->
  forall l, P l.
Proof.
  intros H0 H1 H2.
  fix IH 1. intros [|a [|b l]]; [exact H0 | apply H1 | apply H2, IH].
Qed.

Lemma half_step (n : nat) : (S (S n) + 1) / 2 = S ((n + 1) / 2).
Proof.
  replace (S (S n) + 1) with ((n + 1) + 1 * 2) by lia.
  rewrite Nat.div_add by lia. lia.
Qed.

Lemma getitem_middle {A : Type} (pre : list A) (a : A) (post : list A) :
  getitem (pre ++ a :: post) (length pre) = Return a.
Proof. unfold getitem. now rewrite list_lookup_middle. Qed.

Lemma getitem_end {A : Type} (pre : list A) (a : A) :
  getitem (pre ++ [a]) (length pre + 1) = Raise IndexError.
Proof.
  unfold getitem. rewrite lookup_ge_None_2; [reflexivity|].
  rewrite length_app. simpl. lia.
Qed.

(** The comprehension, started at the index after [pre], computes
    [coords_of] of the tokens that follow. *)
Lemma list_comp_coords (cs pre : list string) :
  list_comp (coord_pair (pre ++ cs))
    (range_from ((length cs + 1) / 2) (length pre) 2) = coords_of cs.
Proof.
  revert pre. induction cs as [|a|a b cs IH] using two_step; intros pre.
  - reflexivity.
  - change ((length [a] + 1) / 2) with 1.
    cbn [range_from list_comp coords_of].
    unfold coord_pair. rewrite getitem_middle. cbn [bind].
    destruct (float a) as [x|e]; cbn [bind]; [|reflexivity].
    now rewrite getitem_end.
  - cbn [length]. rewrite half_step. cbn [range_from list_comp coords_of].
    unfold coord_pair at 1. rewrite getitem_middle. cbn [bind].
    destruct (float a) as [x|e]; cbn [bind]; [|reflexivity].
    replace (pre ++ a :: b :: cs) with ((pre ++ [a]) ++ b :: cs)
      by now rewrite <- app_assoc.
    replace (length pre + 1) with (length (pre ++ [a]))
      by (rewrite length_app; reflexivity).
    rewrite getitem_middle. cbn [bind].
    destruct (float b) as [y|e]; cbn [bind]; [|reflexivity].
    replace ((pre ++ [a]) ++ b :: cs) with ((pre ++ [a; b]) ++ cs)
      by now rewrite <- !app_assoc.
    replace (length pre + 2) with (length (pre ++ [a; b]))
      by (rewrite length_app; reflexivity).
    now rewrite IH.
Qed.

Lemma comprehension_coords (c : string) (cs : list string) :
  list_comp (coord_pair (c :: cs)) (range 1 (length (c :: cs)) 2)
  = coords_of cs.
Proof.
  unfold range. cbn [length].
  replace (S (length cs) - 1 + 2 - 1) with (length cs + 1) by lia.
  exact (list_comp_coords cs [c]).
Qed.

End Comprehension.

(** ** A line that is not blank has a first token *)

Section Tokens.

Lemma lstrip_first (s : string) (c : ascii) :
  first_char (lstrip s) = Some c -> isspace c = false.
Proof.
  induction s as [|d s IH]; cbn; [discriminate|].
  destruct (isspace d) eqn:E; [exact IH|].
  cbn. now intros [= <-].
Qed.

Lemma last_char_rev_append (s acc : string) :
  truthy acc = true -> last_char (rev_append s acc) = last_char acc.
Proof.
  revert acc. induction s as [|d s IH]; intros acc Hacc; [reflexivity|].
  cbn [rev_append]. rewrite IH by reflexivity.
  destruct acc; [discriminate | reflexivity].
Qed.

Lemma last_char_lstrip (s : string) (c : ascii) :
  last_char s = Some c -> isspace c = false -> last_char (lstrip s) = Some c.
Proof.
  intros Hlast Hc. induction s as [|d s IH]; [discriminate|].
  cbn [lstrip]. destruct (isspace d) eqn:E; [|exact Hlast].
  destruct s as [|d' s]; [|exact (IH Hlast)].
  cbn in Hlast. congruence.
Qed.

Lemma first_char_rev_append (s acc : string) :
  truthy s = true -> first_char (rev_append s acc) = last_char s.
Proof.
  revert acc. induction s as [|d s IH]; intros acc Hs; [discriminate|].
  cbn [rev_append]. destruct s as [|d' s]; [reflexivity|].
  now rewrite IH.
Qed.

Lemma last_char_truthy (s : string) (c : ascii) :
  last_char s = Some c -> truthy s = true.
Proof. destruct s; [discriminate | reflexivity]. Qed.

(** [rstrip] keeps the first character of a string that starts with a
    character that is no white space. *)
Lemma rstrip_first (s : string) (c : ascii) :
  first_char s = Some c -> isspace c = false ->
  first_char (rstrip s) = Some c.
Proof.
  destruct s as [|d s]; [discriminate|]. cbn [first_char]. intros [= ->] Hc.
  unfold rstrip, rev. cbn [rev_append].
  assert (Hlast : last_char (lstrip (rev_append s (String c ""))) = Some c).
  { apply last_char_lstrip; [|exact Hc].
    now rewrite last_char_rev_append. }
  rewrite first_char_rev_append; [exact Hlast|].
  exact (last_char_truthy _ _ Hlast).
Qed.

(** A stripped line that is not empty starts with a character that is no
    white space. *)
Lemma strip_first (line : string) :
  truthy (strip line) = true ->
  exists c, first_char (strip line) = Some c /\ isspace c = false.
Proof.
  unfold strip. intros Hne.
  destruct (lstrip line) as [|c s] eqn:E; [discriminate|].
  assert (Hc : isspace c = false) by (apply (lstrip_first line); now rewrite E).
  exists c. split; [|exact Hc]. now apply rstrip_first.
Qed.

Lemma split_from_cons (cur s : string) :
  truthy cur = true -> exists t ts, split_from cur s = t :: ts.
Proof.
  revert cur. induction s as [|d s IH]; intros cur Hcur.
  - destruct cur; [discriminate|]. cbn. eauto.
  - cbn [split_from]. destruct (isspace d).
    + destruct cur; [discriminate|]. cbn. eauto.
    + now apply IH.
Qed.

(** So [parts[0]] exists on every line the loop does not skip. *)
Lemma nonblank_tokens (line : string) :
  truthy (strip line) = true ->
  exists c cs, split (strip line) = c :: cs.
Proof.
  intros Hne. destruct (strip_first line Hne) as (d & Hd & Hsp).
  destruct (strip line) as [|d' s]; [discriminate|].
  cbn in Hd. injection Hd as ->.
  unfold split. cbn [split_from]. rewrite Hsp.
  now apply split_from_cons.
Qed.

End Tokens.

(** ** The loop body on a tokenised line *)

Section LoopBody.

Lemma split_cons_truthy (s c : string) (cs : list string) :
  split s = c :: cs -> truthy s = true.
Proof. destruct s; [discriminate | reflexivity]. Qed.

Lemma truthy_false (s : string) : truthy s = false -> s = "".
Proof. destruct s; [reflexivity | discriminate]. Qed.

(** A blank line is skipped by [continue]. *)
Lemma loop_body_blank (labels : list label) (line : string) :
  truthy (strip line) = false -> loop_body labels line = Return labels.
Proof. intros H. unfold loop_body. now rewrite H. Qed.

(** A line with tokens [c :: cs]: the class id is [int c], the polygon is
    [coords_of cs], and the record is appended when neither raises. *)
Lemma loop_body_tokens (labels : list label) (line c : string)
    (cs : list string) :
  split (strip line) = c :: cs ->
  loop_body labels line =
    (let* cls_id := int c in
     let* coords := coords_of cs in
     Return (labels ++ [(cls_id, coords)])).
Proof.
  intros H. unfold loop_body.
  rewrite (split_cons_truthy _ _ _ H). cbn [negb].
  rewrite H. cbn [getitem lookup list_lookup bind].
  now rewrite comprehension_coords.
Qed.

(** The body on any line: skipped when blank, and otherwise decided by
    the first token and the coordinate tokens; [parts[0]] never raises. *)
Lemma loop_body_cases (labels : list label) (line : string) :
  loop_body labels line =
    match split (strip line) with
    | [] => Return labels
    | c :: cs =>
        let* cls_id := int c in
        let* coords := coords_of cs in
        Return (labels ++ [(cls_id, coords)])
    end.
Proof.
  destruct (truthy (strip line)) eqn:E.
  - destruct (nonblank_tokens line E) as (c & cs & Htok).
    rewrite Htok. now apply loop_body_tokens.
  - rewrite (loop_body_blank _ _ E).
    apply truthy_false in E. now rewrite E.
Qed.

Lemma int_raises (s : string) (e : exn) : int s = Raise e -> e = ValueError.
Proof.
  unfold int. destruct (sign (strip s)) as [neg body].
  destruct (digitpart 0 0 body) as [[v cnt] rest].
  destruct cnt; [congruence|]. destruct rest; [|congruence].
  destruct (_ <=? _)%nat; congruence.
Qed.

Lemma exponent_raises (s : string) (e : exn) :
  exponent s = Raise e -> e = ValueError.
Proof.
  unfold exponent. destruct s as [|c s]; [discriminate|].
  destruct (_ =? _)%char; [|congruence].
  destruct (sign s) as [neg body].
  destruct (digitpart 0 0 body) as [[v cnt] rest].
  destruct cnt; [congruence|]. destruct rest; congruence.
Qed.

Lemma float_raises (s : string) (e : exn) :
  float s = Raise e -> e = ValueError.
Proof.
  unfold float. destruct (sign (strip s)) as [neg body].
  destruct (_ || _); [discriminate|].
  destruct (_ =? _)%string; [discriminate|].
  destruct (digitpart 0 0 body) as [[ip ic] r1].
  destruct (match r1 with String "." r => _ | _ => _ end) as [[mant fc] r2].
  destruct (ic + fc); [congruence|].
  destruct (exponent r2) as [ex|e'] eqn:E; cbn [bind]; [discriminate|].
  apply exponent_raises in E. congruence.
Qed.

(** With an even number of coordinate tokens that all convert, the
    polygon is the converted values taken two at a time. *)
Lemma coords_of_even (cs : list string) (xs : list pyfloat) :
  list_comp float cs = Return xs ->
  Nat.even (length xs) = true ->
  coords_of cs = Return (pairs xs).
Proof.
  revert xs. induction cs as [|a|a b cs IH] using two_step; intros xs.
  - cbn. intros [= <-]. reflexivity.
  - cbn [list_comp]. destruct (float a); cbn [bind]; [|discriminate].
    intros [= <-]. discriminate.
  - cbn [list_comp coords_of].
    destruct (float a) as [x|]; cbn [bind]; [|discriminate].
    destruct (float b) as [y|]; cbn [bind]; [|discriminate].
    destruct (list_comp float cs) as [ys|]; cbn [bind]; [|discriminate].
    intros [= <-] Hev. cbn [pairs].
    now rewrite (IH ys eq_refl Hev).
Qed.

(** With an odd number of coordinate tokens the comprehension raises:
    the last token has no partner. *)
Lemma coords_of_odd (cs : list string) :
  Nat.odd (length cs) = true -> returns (coords_of cs) = false.
Proof.
  induction cs as [|a|a b cs IH] using two_step.
  - discriminate.
  - intros _. cbn. now destruct (float a).
  - intros Hodd. cbn [coords_of].
    destruct (float a); cbn [bind]; [|reflexivity].
    destruct (float b); cbn [bind]; [|reflexivity].
    specialize (IH Hodd). now destruct (coords_of cs).
Qed.

(** A coordinate token that does not convert makes the comprehension
    raise [ValueError]. *)
Lemma coords_of_bad (cs : list string) (t : string) :
  In t cs -> returns (float t) = false -> coords_of cs = Raise ValueError.
Proof.
  induction cs as [|a|a b cs IH] using two_step; intros Hin Hbad.
  - destruct Hin.
  - destruct Hin as [->|[]]. cbn.
    destruct (float t) as [|e] eqn:E; [discriminate|].
    now rewrite (float_raises _ _ E).
  - cbn [coords_of].
    destruct (float a) as [x|e] eqn:Ea; cbn [bind];
      [|now rewrite (float_raises _ _ Ea)].
    destruct (float b) as [y|e] eqn:Eb; cbn [bind];
      [|now rewrite (float_raises _ _ Eb)].
    destruct Hin as [->|[->|Hin]]; [now rewrite Ea in Hbad
                                   |now rewrite Eb in Hbad|].
    now rewrite (IH Hin Hbad).
Qed.

End LoopBody.

(** ** Whole files *)

Section Files.

Variable fs : gmap string node.

Lemma load_file (path : string) (lines : list string) :
  fs !! path = Some (File lines) ->
  load_yolo_labels fs path = for_each loop_body [] lines.
Proof. intros H. unfold load_yolo_labels, open_read. now rewrite H. Qed.

Lemma load_missing (path : string) :
  fs !! path = None -> load_yolo_labels fs path = Raise FileNotFoundError.
Proof. intros H. unfold load_yolo_labels, open_read. now rewrite H. Qed.

(** A line on which the body returns extends the list and the scan goes
    on; a line on which it raises ends the call. *)
Lemma for_each_step (labels labels' : list label) (line : string)
    (rest : list string) :
  loop_body labels line = Return labels' ->
  for_each loop_body labels (line :: rest) = for_each loop_body labels' rest.
Proof. intros H. cbn [for_each]. now rewrite H. Qed.

Lemma for_each_raise (labels : list label) (line : string)
    (rest : list string) (e : exn) :
  loop_body labels line = Raise e ->
  for_each loop_body labels (line :: rest) = Raise e.
Proof. intros H. cbn [for_each]. now rewrite H. Qed.

(** A file with a line on which the body raises, whatever the list built
    so far, makes the whole call raise. *)
Lemma for_each_raises_in (lines : list string) (line : string) :
  In line lines ->
  (forall labels, returns (loop_body labels line) = false) ->
  forall labels, returns (for_each loop_body labels lines) = false.
Proof.
  intros Hin Hbad. induction lines as [|l lines IH]; intros labels.
  - destruct Hin.
  - cbn [for_each].
    destruct (loop_body labels l) as [labels'|e] eqn:E; cbn [bind];
      [|reflexivity].
    destruct Hin as [->|Hin]; [|now apply IH].
    specialize (Hbad labels). now rewrite E in Hbad.
Qed.

(** The record of a line whose tokens parse with an even coordinate
    count is appended. *)
Lemma loop_body_record (labels : list label) (line : string) (class_id : Z)
    (xs : list pyfloat) :
  Spec.parsed_tokens line = Some (class_id, xs) ->
  Nat.even (length xs) = true ->
  loop_body labels line = Return (labels ++ [(class_id, pairs xs)]).
Proof.
  unfold Spec.parsed_tokens. intros H Hev.
  destruct (split (strip line)) as [|c cs] eqn:Htok; [discriminate|].
  rewrite (loop_body_tokens _ _ _ _ Htok).
  destruct (int c) as [n|]; [|discriminate].
  destruct (list_comp float cs) as [ys|] eqn:Hys; [|discriminate].
  injection H as -> ->. cbn [bind].
  now rewrite (coords_of_even _ _ Hys Hev).
Qed.

End Files.

(** ** Lines the program accepts *)

Lemma blank_no_tokens (line : string) :
  Spec.blank line = true -> Spec.parsed_tokens line = None.
Proof.
  unfold Spec.blank, Spec.parsed_tokens. intros H.
  apply negb_true_iff, truthy_false in H. now rewrite H.
Qed.

Lemma valid_parsed (line : string) :
  Spec.valid line = true ->
  exists class_id xs,
    Spec.parsed_tokens line = Some (class_id, xs)
    /\ Nat.even (length xs) = true.
Proof.
  unfold Spec.valid. destruct (Spec.parsed_tokens line) as [[n xs]|];
    [|discriminate].
  intros H. exists n, xs. split; [reflexivity|].
  do 2 (apply andb_true_iff in H as [H _]).
  now apply andb_true_iff in H as [_ H].
Qed.

(** C3. For every valid line (a non-negative integer class id followed by
    an even count, at least six, of floats in [0.0, 1.0]), the loop of
    [load_yolo_labels] appends exactly one record, whose class id and
    coordinate pairs are the parsed token values, and raises nothing: the
    body returns the list extended by that record, the scan goes on with
    it, and a file made of that line loads as that one record. Its
    witness is the scenario ["0 0.1 0.2 0.3 0.4 0.5 0.6"], which loads as
    one record of class 0 with polygon [(0.1,0.2),(0.3,0.4),(0.5,0.6)]. *)
Theorem valid_line_one_record (line : string) (class_id : Z)
    (xs : list pyfloat) :
  Spec.valid line = true ->
  Spec.parsed_tokens line = Some (class_id, xs) ->
  (forall labels,
     loop_body labels line = Return (labels ++ [(class_id, pairs xs)]))
  /\ (forall labels rest,
        for_each loop_body labels (line :: rest)
        = for_each loop_body (labels ++ [(class_id, pairs xs)]) rest)
  /\ (forall (fs : gmap string node) path,
        fs !! path = Some (File [line]) ->
        load_yolo_labels fs path = Return [(class_id, pairs xs)]).
Proof.
  intros Hvalid Htok.
  destruct (valid_parsed _ Hvalid) as (n & ys & Htok' & Hev).
  rewrite Htok in Htok'. injection Htok' as <- <-.
  assert (Hbody : forall labels,
             loop_body labels line = Return (labels ++ [(class_id, pairs xs)]))
    by (intros labels; now apply loop_body_record).
  repeat split.
  - exact Hbody.
  - intros labels rest. apply for_each_step, Hbody.
  - intros fs path Hfile. rewrite (load_file _ _ _ Hfile).
    now rewrite (for_each_step _ _ _ _ (Hbody [])).
Qed.

Lemma valid_line_one_record_witness :
  Spec.valid triangle_line = true
  /\ Spec.parsed_tokens triangle_line
     = Some (0%Z, [f0_1; f0_2; f0_3; f0_4; f0_5; f0_6])
  /\ load_yolo_labels {[ "labels.txt" := File [triangle_line] ]} "labels.txt"
     = Return [(0%Z, [(f0_1, f0_2); (f0_3, f0_4); (f0_5, f0_6)])].
Proof.
  assert (Hv : Spec.valid triangle_line = true) by (vm_compute; reflexivity).
  assert (Ht : Spec.parsed_tokens triangle_line
               = Some (0%Z, [f0_1; f0_2; f0_3; f0_4; f0_5; f0_6]))
    by (vm_compute; reflexivity).
  split; [exact Hv | split; [exact Ht|]].
  apply (valid_line_one_record triangle_line _ _ Hv Ht).
  apply lookup_singleton_eq.
Defined.

(** C9. For every non-blank line made of a single token that parses as an
    integer (such as ["5"]), the loop of [load_yolo_labels] appends a
    record with that class id and an empty polygon and raises nothing:
    zero coordinate pairs are accepted. *)
Theorem class_id_alone_empty_polygon (line c : string) (class_id : Z) :
  split (strip line) = [c] ->
  int c = Return class_id ->
  (forall labels, loop_body labels line = Return (labels ++ [(class_id, [])]))
  /\ (forall (fs : gmap string node) path,
        fs !! path = Some (File [line]) ->
        load_yolo_labels fs path = Return [(class_id, [])]).
Proof.
  intros Htok Hint.
  assert (Hbody : forall labels,
             loop_body labels line = Return (labels ++ [(class_id, [])])).
  { intros labels. rewrite (loop_body_tokens _ _ _ _ Htok), Hint.
    reflexivity. }
  split; [exact Hbody|].
  intros fs path Hfile. rewrite (load_file _ _ _ Hfile).
  now rewrite (for_each_step _ _ _ _ (Hbody [])).
Qed.

Lemma class_id_alone_empty_polygon_witness :
  split (strip "5") = ["5"]
  /\ int "5" = Return 5%Z
  /\ load_yolo_labels {[ "labels.txt" := File ["5"] ]} "labels.txt"
     = Return [(5%Z, [])].
Proof.
  assert (Ht : split (strip "5") = ["5"]) by (vm_compute; reflexivity).
  assert (Hi : int "5" = Return 5%Z) by (vm_compute; reflexivity).
  split; [exact Ht | split; [exact Hi|]].
  apply (class_id_alone_empty_polygon "5" "5" 5 Ht Hi).
  apply lookup_singleton_eq.
Defined.

(** C10. For every line whose first token parses as a negative integer
    (such as ["-1 0.1 0.2 0.3 0.4 0.5 0.6"]), the record of the line
    carries that negative class id: the class id goes from [int] into the
    record with no check of its sign, so the body's outcome is that of the
    coordinates alone, and when these convert in pairs the record is
    appended and returned. *)
Theorem negative_class_id_kept (line c : string) (cs : list string)
    (class_id : Z) :
  split (strip line) = c :: cs ->
  int c = Return class_id ->
  (class_id < 0)%Z ->
  (forall labels,
     loop_body labels line =
       (let* coords := coords_of cs in
        Return (labels ++ [(class_id, coords)])))
  /\ (forall xs,
        list_comp float cs = Return xs ->
        Nat.even (length xs) = true ->
        (forall labels,
           loop_body labels line = Return (labels ++ [(class_id, pairs xs)]))
        /\ (forall (fs : gmap string node) path,
              fs !! path = Some (File [line]) ->
              load_yolo_labels fs path = Return [(class_id, pairs xs)])).
Proof.
  intros Htok Hint _.
  assert (Hbody : forall labels,
             loop_body labels line =
               (let* coords := coords_of cs in
                Return (labels ++ [(class_id, coords)]))).
  { intros labels. now rewrite (loop_body_tokens _ _ _ _ Htok), Hint. }
  split; [exact Hbody|].
  intros xs Hxs Hev.
  assert (Hrec : forall labels,
             loop_body labels line = Return (labels ++ [(class_id, pairs xs)])).
  { intros labels. now rewrite Hbody, (coords_of_even _ _ Hxs Hev). }
  split; [exact Hrec|].
  intros fs path Hfile. rewrite (load_file _ _ _ Hfile).
  now rewrite (for_each_step _ _ _ _ (Hrec [])).
Qed.

Lemma negative_class_id_kept_witness :
  split (strip negative_line)
  = ["-1"; "0.1"; "0.2"; "0.3"; "0.4"; "0.5"; "0.6"]
  /\ int "-1" = Return (-1)%Z
  /\ (-1 < 0)%Z
  /\ load_yolo_labels {[ "labels.txt" := File [negative_line] ]} "labels.txt"
     = Return [((-1)%Z, [(f0_1, f0_2); (f0_3, f0_4); (f0_5, f0_6)])].
Proof.
  assert (Ht : split (strip negative_line)
               = ["-1"; "0.1"; "0.2"; "0.3"; "0.4"; "0.5"; "0.6"])
    by (vm_compute; reflexivity).
  assert (Hi : int "-1" = Return (-1)%Z) by (vm_compute; reflexivity).
  assert (Hn : (-1 < 0)%Z) by lia.
  split; [exact Ht | split; [exact Hi | split; [exact Hn|]]].
  apply (proj2 (negative_class_id_kept negative_line _ _ _ Ht Hi Hn)
           [f0_1; f0_2; f0_3; f0_4; f0_5; f0_6]).
  - vm_compute; reflexivity.
  - reflexivity.
  - apply lookup_singleton_eq.
Defined.

(** ** Files without an invalid line *)

Section ValidFiles.

Lemma not_invalid (line : string) :
  Spec.invalid line = false ->
  Spec.blank line = true \/ Spec.valid line = true.
Proof.
  unfold Spec.invalid.
  destruct (Spec.blank line), (Spec.valid line); cbn; auto; discriminate.
Qed.

Lemma count_zero (p : string -> bool) (lines : list string) :
  Spec.count p lines = 0 -> Forall (fun l => p l = false) lines.
Proof.
  unfold Spec.count. induction lines as [|l lines IH]; cbn; [constructor|].
  destruct (p l) eqn:E; [discriminate|]. intros H. constructor; auto.
Qed.

Lemma record_of_valid (line : string) :
  Spec.valid line = true -> exists r, Spec.record_of line = Some r.
Proof.
  intros H. destruct (valid_parsed _ H) as (n & xs & Htok & _).
  unfold Spec.record_of. rewrite Htok. eauto.
Qed.

Lemma valid_not_blank (line : string) :
  Spec.blank line = true -> Spec.valid line = false.
Proof.
  intros H. unfold Spec.valid. now rewrite (blank_no_tokens _ H).
Qed.

(** The scan of lines none of which is invalid returns, with one record
    per valid line, in the order of the lines. *)
Lemma for_each_no_invalid (lines : list string) :
  Forall (fun l => Spec.invalid l = false) lines ->
  forall labels,
    for_each loop_body labels lines
    = Return (labels ++ omap Spec.record_of lines).
Proof.
  induction 1 as [|l lines Hl _ IH]; intros labels.
  - cbn. now rewrite app_nil_r.
  - destruct (not_invalid _ Hl) as [Hb|Hv].
    + rewrite (for_each_step labels labels).
      * rewrite IH. cbn [omap list_omap]. unfold Spec.record_of at 2.
        now rewrite (blank_no_tokens _ Hb).
      * apply loop_body_blank. unfold Spec.blank in Hb.
        now apply negb_true_iff in Hb.
    + destruct (valid_parsed _ Hv) as (n & xs & Htok & Hev).
      rewrite (for_each_step _ _ _ _ (loop_body_record _ _ _ _ Htok Hev)).
      rewrite IH. cbn [omap list_omap]. unfold Spec.record_of at 2.
      rewrite Htok. now rewrite <- app_assoc.
Qed.

Lemma records_count (lines : list string) :
  Forall (fun l => Spec.invalid l = false) lines ->
  length (omap Spec.record_of lines) = Spec.count Spec.valid lines.
Proof.
  unfold Spec.count.
  induction 1 as [|l lines Hl _ IH]; [reflexivity|].
  cbn [omap list_omap List.filter].
  destruct (not_invalid _ Hl) as [Hb|Hv].
  - rewrite (valid_not_blank _ Hb). unfold Spec.record_of at 1.
    now rewrite (blank_no_tokens _ Hb).
  - rewrite Hv. destruct (record_of_valid _ Hv) as [r ->].
    cbn [length]. now f_equal.
Qed.

End ValidFiles.

(** C1, as stated, fails: on a file with one valid and one invalid line the
    call returns no result with one record, an exception escapes it. *)
Lemma invalid_line_escapes :
  Spec.count Spec.valid mixed_file = 1
  /\ Spec.count Spec.invalid mixed_file = 1
  /\ load_yolo_labels {[ "labels.txt" := File mixed_file ]} "labels.txt"
     = Raise ValueError
  /\ ~ (exists records,
          load_yolo_labels {[ "labels.txt" := File mixed_file ]} "labels.txt"
          = Return records
          /\ length records = 1).
Proof.
  assert (H : load_yolo_labels {[ "labels.txt" := File mixed_file ]}
                "labels.txt" = Raise ValueError) by (vm_compute; reflexivity).
  repeat split; try (vm_compute; reflexivity).
  intros (records & Hr & _). rewrite H in Hr. discriminate.
Qed.

(** C1, amended. For every file with N valid lines and no invalid line
    (blank lines apart), [load_yolo_labels] returns exactly the N records of
    the valid lines, in line order, and no exception escapes the call. *)
Theorem valid_file_records (fs : gmap string node) (path : string)
    (lines : list string) :
  fs !! path = Some (File lines) ->
  Spec.count Spec.invalid lines = 0 ->
  load_yolo_labels fs path = Return (omap Spec.record_of lines)
  /\ length (omap Spec.record_of lines) = Spec.count Spec.valid lines.
Proof.
  intros Hfile Hnone. apply count_zero in Hnone. split.
  - rewrite (load_file _ _ _ Hfile). now rewrite for_each_no_invalid.
  - now apply records_count.
Qed.

Lemma valid_file_records_witness :
  ({[ "labels.txt" := File two_triangles ]} : gmap string node) !! "labels.txt"
  = Some (File two_triangles)
  /\ Spec.count Spec.invalid two_triangles = 0
  /\ load_yolo_labels {[ "labels.txt" := File two_triangles ]} "labels.txt"
     = Return (omap Spec.record_of two_triangles)
  /\ length (omap Spec.record_of two_triangles)
     = Spec.count Spec.valid two_triangles.
Proof.
  assert (Hf : ({[ "labels.txt" := File two_triangles ]} : gmap string node)
               !! "labels.txt" = Some (File two_triangles))
    by apply lookup_singleton_eq.
  assert (Hc : Spec.count Spec.invalid two_triangles = 0)
    by (vm_compute; reflexivity).
  split; [exact Hf | split; [exact Hc|]].
  exact (valid_file_records _ _ _ Hf Hc).
Defined.

(** ** Lines on which the program raises, and lines it does not check *)

Section Raising.

(** A first token that is no integer: [int] raises [ValueError]. *)
Lemma loop_body_bad_class (labels : list label) (line c : string)
    (cs : list string) :
  split (strip line) = c :: cs ->
  returns (int c) = false ->
  loop_body labels line = Raise ValueError.
Proof.
  intros Htok Hbad. rewrite (loop_body_tokens _ _ _ _ Htok).
  destruct (int c) as [n|e] eqn:E; [discriminate|].
  now rewrite (int_raises _ _ E).
Qed.

(** A coordinate token that is no float: [ValueError] again, whatever the
    tokens before it were. *)
Lemma loop_body_bad_coord (labels : list label) (line c t : string)
    (cs : list string) :
  split (strip line) = c :: cs ->
  In t cs ->
  returns (float t) = false ->
  loop_body labels line = Raise ValueError.
Proof.
  intros Htok Hin Hbad. rewrite (loop_body_tokens _ _ _ _ Htok).
  destruct (int c) as [n|e] eqn:E; cbn [bind];
    [|now rewrite (int_raises _ _ E)].
  now rewrite (coords_of_bad _ _ Hin Hbad).
Qed.

(** An odd number of coordinate tokens: the body raises. *)
Lemma loop_body_odd (labels : list label) (line c : string)
    (cs : list string) :
  split (strip line) = c :: cs ->
  Nat.odd (length cs) = true ->
  returns (loop_body labels line) = false.
Proof.
  intros Htok Hodd. rewrite (loop_body_tokens _ _ _ _ Htok).
  destruct (int c); cbn [bind]; [|reflexivity].
  pose proof (coords_of_odd _ Hodd) as H.
  now destruct (coords_of cs).
Qed.

Lemma pairs_length {A : Type} (l : list A) : 2 * length (pairs l) <= length l.
Proof.
  induction l as [|a|a b l IH] using two_step; cbn [pairs length]; lia.
Qed.

(** With an even number of elements, each of them is in some pair. *)
Lemma pairs_cover {A : Type} (l : list A) (x : A) :
  Nat.even (length l) = true -> In x l ->
  exists p, In p (pairs l) /\ (fst p = x \/ snd p = x).
Proof.
  induction l as [|a|a b l IH] using two_step; intros Hev Hin.
  - destruct Hin.
  - discriminate.
  - cbn [pairs]. destruct Hin as [->|[->|Hin]].
    + exists (x, b). split; [now left | now left].
    + exists (a, x). split; [now left | now right].
    + destruct (IH Hev Hin) as (p & Hp & Hx).
      exists p. split; [now right | exact Hx].
Qed.

(** One such line anywhere in a file and the call on the file raises. *)
Lemma load_raises_on_line (fs : gmap string node) (path line : string)
    (lines : list string) :
  fs !! path = Some (File lines) ->
  In line lines ->
  (forall labels, returns (loop_body labels line) = false) ->
  returns (load_yolo_labels fs path) = false.
Proof.
  intros Hfile Hin Hbad. rewrite (load_file _ _ _ Hfile).
  now apply for_each_raises_in with line.
Qed.

End Raising.

(** C2. The call on a path that names no file does not return an empty
    list: for every such path [open] raises [FileNotFoundError], and the
    exception leaves [load_yolo_labels]. *)
Theorem missing_file_raises (fs : gmap string node) (path : string) :
  fs !! path = None ->
  load_yolo_labels fs path = Raise FileNotFoundError.
Proof. apply load_missing. Qed.

Lemma missing_file_raises_witness :
  load_yolo_labels {[ ".labels/a.txt" := File [triangle_line] ]}
    ".labels/missing.txt"
  = Raise FileNotFoundError.
Proof.
  apply (missing_file_raises {[ ".labels/a.txt" := File [triangle_line] ]}
           ".labels/missing.txt").
  reflexivity.
Defined.

(** C4. A line with a malformed number is not skipped. For every file
    holding a line whose first token is no integer, or one of whose
    coordinate tokens is no float, the loop body raises [ValueError] on
    that line and the call on the file returns nothing: the records of the
    other lines are lost with it. *)
Theorem malformed_number_aborts_file (fs : gmap string node)
    (path line c : string) (lines cs : list string) :
  fs !! path = Some (File lines) ->
  In line lines ->
  split (strip line) = c :: cs ->
  returns (int c) = false
  \/ (exists t, In t cs /\ returns (float t) = false) ->
  (forall labels, loop_body labels line = Raise ValueError)
  /\ returns (load_yolo_labels fs path) = false.
Proof.
  intros Hfile Hin Htok Hbad.
  assert (Hbody : forall labels, loop_body labels line = Raise ValueError).
  { intros labels. destruct Hbad as [Hc|(t & Ht & Hf)].
    - now apply loop_body_bad_class with c cs.
    - now apply loop_body_bad_coord with c t cs. }
  split; [exact Hbody|].
  apply load_raises_on_line with line lines; [exact Hfile | exact Hin|].
  intros labels. now rewrite Hbody.
Qed.

Lemma malformed_number_aborts_file_witness :
  load_yolo_labels {[ "labels.txt" := File bad_class_file ]} "labels.txt"
  = Raise ValueError
  /\ returns
       (load_yolo_labels {[ "labels.txt" := File bad_coord_file ]} "labels.txt")
     = false.
Proof.
  split; [vm_compute; reflexivity|].
  apply (malformed_number_aborts_file
           {[ "labels.txt" := File bad_coord_file ]} "labels.txt"
           "1 0.1 0,2 0.3 0.4 0.5 0.6" "1" bad_coord_file
           ["0.1"; "0,2"; "0.3"; "0.4"; "0.5"; "0.6"]).
  - apply lookup_singleton_eq.
  - right. left. reflexivity.
  - vm_compute; reflexivity.
  - right. exists "0,2". split; [right; left; reflexivity|].
    vm_compute; reflexivity.
Defined.

(** C5. A line with an odd number of coordinate tokens is not skipped.
    For every file holding such a line the loop body raises on it (the
    last token has no partner: [IndexError], unless a token before it is
    no number) and the call on the file returns nothing. *)
Theorem odd_count_aborts_file (fs : gmap string node)
    (path line c : string) (lines cs : list string) :
  fs !! path = Some (File lines) ->
  In line lines ->
  split (strip line) = c :: cs ->
  Nat.odd (length cs) = true ->
  (forall labels, returns (loop_body labels line) = false)
  /\ returns (load_yolo_labels fs path) = false.
Proof.
  intros Hfile Hin Htok Hodd.
  assert (Hbody : forall labels, returns (loop_body labels line) = false)
    by (intros labels; now apply loop_body_odd with c cs).
  split; [exact Hbody|].
  now apply load_raises_on_line with line lines.
Qed.

Lemma odd_count_aborts_file_witness :
  load_yolo_labels {[ "labels.txt" := File odd_file ]} "labels.txt"
  = Raise IndexError
  /\ returns (load_yolo_labels {[ "labels.txt" := File odd_file ]} "labels.txt")
     = false.
Proof.
  split; [vm_compute; reflexivity|].
  apply (odd_count_aborts_file {[ "labels.txt" := File odd_file ]}
           "labels.txt" "1 0.1 0.2 0.3" "1" odd_file ["0.1"; "0.2"; "0.3"]).
  - apply lookup_singleton_eq.
  - left. reflexivity.
  - vm_compute; reflexivity.
  - reflexivity.
Defined.

(** C6. A line with a coordinate outside [0.0, 1.0] is not rejected. For
    every line whose tokens parse, with an even coordinate count, and one
    of whose coordinates is outside the range, the record is appended all
    the same, it holds that coordinate, and a file made of the line loads
    as that record. *)
Theorem out_of_range_line_kept (line : string) (class_id : Z)
    (xs : list pyfloat) (x : pyfloat) :
  Spec.parsed_tokens line = Some (class_id, xs) ->
  Nat.even (length xs) = true ->
  In x xs ->
  Spec.in_unit x = false ->
  (forall labels,
     loop_body labels line = Return (labels ++ [(class_id, pairs xs)]))
  /\ (exists p, In p (pairs xs) /\ (fst p = x \/ snd p = x))
  /\ (forall (fs : gmap string node) path,
        fs !! path = Some (File [line]) ->
        load_yolo_labels fs path = Return [(class_id, pairs xs)]).
Proof.
  intros Htok Hev Hin _.
  assert (Hbody : forall labels,
             loop_body labels line = Return (labels ++ [(class_id, pairs xs)]))
    by (intros labels; now apply loop_body_record).
  split; [exact Hbody | split; [now apply pairs_cover|]].
  intros fs path Hfile. rewrite (load_file _ _ _ Hfile).
  now rewrite (for_each_step _ _ _ _ (Hbody [])).
Qed.

Lemma out_of_range_line_kept_witness :
  Spec.in_unit f1_5 = false
  /\ load_yolo_labels {[ "labels.txt" := File [out_of_range_line] ]}
       "labels.txt"
     = Return [(2%Z, [(f0_1, f0_2); (f1_5, f0_3)])].
Proof.
  assert (Hout : Spec.in_unit f1_5 = false) by reflexivity.
  split; [exact Hout|].
  apply (out_of_range_line_kept out_of_range_line 2
           [f0_1; f0_2; f1_5; f0_3] f1_5).
  - vm_compute; reflexivity.
  - reflexivity.
  - right. right. left. reflexivity.
  - exact Hout.
  - apply lookup_singleton_eq.
Defined.

(** C7. A line with fewer than three points is not rejected. For every
    line whose tokens parse, with an even count of fewer than six
    coordinates, the record is appended all the same, its polygon has
    fewer than three points, and a file made of the line loads as that
    record. *)
Theorem short_polygon_line_kept (line : string) (class_id : Z)
    (xs : list pyfloat) :
  Spec.parsed_tokens line = Some (class_id, xs) ->
  Nat.even (length xs) = true ->
  length xs < 6 ->
  (forall labels,
     loop_body labels line = Return (labels ++ [(class_id, pairs xs)]))
  /\ length (pairs xs) < 3
  /\ (forall (fs : gmap string node) path,
        fs !! path = Some (File [line]) ->
        load_yolo_labels fs path = Return [(class_id, pairs xs)]).
Proof.
  intros Htok Hev Hlen.
  assert (Hbody : forall labels,
             loop_body labels line = Return (labels ++ [(class_id, pairs xs)]))
    by (intros labels; now apply loop_body_record).
  split; [exact Hbody | split].
  - pose proof (pairs_length xs). lia.
  - intros fs path Hfile. rewrite (load_file _ _ _ Hfile).
    now rewrite (for_each_step _ _ _ _ (Hbody [])).
Qed.

Lemma short_polygon_line_kept_witness :
  load_yolo_labels {[ "labels.txt" := File [single_point_line] ]} "labels.txt"
  = Return [(1%Z, [(f0_1, f0_2)])].
Proof.
  apply (short_polygon_line_kept single_point_line 1 [f0_1; f0_2]).
  - vm_compute; reflexivity.
  - reflexivity.
  - cbn. lia.
  - apply lookup_singleton_eq.
Defined.

(** ** The directory script *)

Section Script.

Variable fs : gmap string node.
Variable loaded : string -> list label.

Lemma script_loop_returns (entries : list string) :
  (forall name, In name entries -> endswith name ".txt" = true ->
     load_yolo_labels fs (path_join labels_dir name) = Return (loaded name)) ->
  forall out,
    script_loop fs entries out
    = (out ++ flat_map (printed loaded) (matching entries), Return tt).
Proof.
  induction entries as [|name entries IH]; intros Hall out.
  - cbn. now rewrite app_nil_r.
  - cbn [script_loop matching List.filter].
    assert (Hrest : forall n, In n entries -> endswith n ".txt" = true ->
               load_yolo_labels fs (path_join labels_dir n)
               = Return (loaded n))
      by (intros n Hn; apply Hall; now right).
    destruct (endswith name ".txt") eqn:E.
    + rewrite (Hall name (or_introl eq_refl) E).
      rewrite (IH Hrest). cbn [flat_map printed].
      fold (matching entries). now rewrite <- !app_assoc.
    + apply (IH Hrest).
Qed.

End Script.

(** C8, as stated, fails: a file that cannot be opened ends the loop over
    the directory; the files after it are not loaded, although they would
    load. *)
Lemma locked_file_ends_script :
  script locked_dir = ([Loading ".labels/a.txt"], Raise PermissionError)
  /\ load_yolo_labels locked_dir ".labels/b.txt"
     = Return [(0%Z, [(f0_1, f0_2); (f0_3, f0_4); (f0_5, f0_6)])]
  /\ ~ In (Loading ".labels/b.txt") (fst (script locked_dir)).
Proof.
  assert (H : script locked_dir
              = ([Loading ".labels/a.txt"], Raise PermissionError))
    by (vm_compute; reflexivity).
  split; [exact H | split; [vm_compute; reflexivity|]].
  rewrite H. cbn. intros [[=]|[]].
Qed.

(** C8, amended. The script calls [load_yolo_labels] on every entry of the
    directory listing that ends in [.txt], in the order of the listing, and
    prints one result per such file, provided each of these calls
    returns. *)
Theorem script_loads_matching_files (fs : gmap string node)
    (entries : list string) (loaded : string -> list label) :
  fs !! labels_dir = Some (Dir entries) ->
  (forall name, In name entries -> endswith name ".txt" = true ->
     load_yolo_labels fs (path_join labels_dir name) = Return (loaded name)) ->
  script fs = (flat_map (printed loaded) (matching entries), Return tt).
Proof.
  intros Hdir Hall. unfold script, listdir. rewrite Hdir.
  now rewrite (script_loop_returns fs loaded entries Hall []).
Qed.

Lemma script_loads_matching_files_witness :
  script small_dir
  = ([Loading ".labels/a.txt"; Loaded (small_dir_loaded "a.txt");
      Loading ".labels/b.txt"; Loaded (small_dir_loaded "b.txt")],
     Return tt).
Proof.
  apply (script_loads_matching_files small_dir
           ["a.txt"; "notes.md"; "b.txt"] small_dir_loaded).
  - vm_compute; reflexivity.
  - intros name [<-|[<-|[<-|[]]]] Hext;
      solve [vm_compute; reflexivity | vm_compute in Hext; discriminate].
Defined.

(** * Further properties of the loader *)

Section Loader.

(** The converse of [coords_of_even]: a comprehension that returns has
    read an even number of floats and paired them. *)
Lemma coords_of_return_inv (cs : list string)
    (coords : list (pyfloat * pyfloat)) :
  coords_of cs = Return coords ->
  exists xs, list_comp float cs = Return xs
             /\ Nat.even (length xs) = true /\ coords = pairs xs.
Proof.
  revert coords. induction cs as [|a|a b cs IH] using two_step; intros coords.
  - cbn. intros [= <-]. now exists [].
  - cbn. destruct (float a); discriminate.
  - cbn [coords_of list_comp].
    destruct (float a) as [x|]; cbn [bind]; [|discriminate].
    destruct (float b) as [y|]; cbn [bind]; [|discriminate].
    destruct (coords_of cs) as [r|]; cbn [bind]; [|discriminate].
    intros [= <-]. destruct (IH r eq_refl) as (xs & -> & Hev & ->).
    now exists (x :: y :: xs).
Qed.

(** A comprehension that raises: [ValueError] comes from a token that is
    no float, [IndexError] from an odd number of tokens. *)
Lemma coords_of_raise_inv (cs : list string) (e : exn) :
  coords_of cs = Raise e ->
  (e = ValueError /\ exists t, In t cs /\ returns (float t) = false)
  \/ (e = IndexError /\ Nat.odd (length cs) = true).
Proof.
  induction cs as [|a|a b cs IH] using two_step.
  - discriminate.
  - cbn. destruct (float a) as [x|e'] eqn:Ea; cbn.
    + intros [= <-]. now right.
    + intros [= <-]. left. rewrite (float_raises _ _ Ea). split; [reflexivity|].
      exists a. split; [now left | now rewrite Ea].
  - cbn [coords_of].
    destruct (float a) as [x|e'] eqn:Ea; cbn [bind].
    2:{ intros [= <-]. left. rewrite (float_raises _ _ Ea).
        split; [reflexivity|]. exists a. split; [now left | now rewrite Ea]. }
    destruct (float b) as [y|e'] eqn:Eb; cbn [bind].
    2:{ intros [= <-]. left. rewrite (float_raises _ _ Eb).
        split; [reflexivity|]. exists b.
        split; [right; now left | now rewrite Eb]. }
    destruct (coords_of cs) as [r|e'] eqn:Er; cbn [bind]; [discriminate|].
    intros [= <-]. destruct (IH eq_refl) as [(-> & t & Ht & Hf)|(-> & Hodd)].
    + left. split; [reflexivity|]. exists t. split; [right; now right | exact Hf].
    + right. split; [reflexivity | exact Hodd].
Qed.

Lemma no_tokens_blank (line : string) :
  split (strip line) = [] -> Spec.blank line = true.
Proof.
  intros H. unfold Spec.blank.
  destruct (truthy (strip line)) eqn:E; [|reflexivity].
  destruct (nonblank_tokens line E) as (c & cs & Htok). congruence.
Qed.

Lemma blank_not_well_formed (line : string) :
  Spec.blank line = true -> well_formed line = false.
Proof. intros H. unfold well_formed. now rewrite (blank_no_tokens _ H). Qed.

(** What the body does with the list on a line the loader takes. *)
Lemma loop_body_takes (labels : list label) (line : string) :
  takes line = true ->
  loop_body labels line
  = Return (labels ++ match Spec.record_of line with
                      | Some r => [r]
                      | None => []
                      end).
Proof.
  unfold takes. intros H. apply orb_true_iff in H as [Hb|Hw].
  - unfold Spec.record_of. rewrite (blank_no_tokens _ Hb), app_nil_r.
    apply loop_body_blank. unfold Spec.blank in Hb.
    now apply negb_true_iff in Hb.
  - unfold well_formed in Hw. unfold Spec.record_of.
    destruct (Spec.parsed_tokens line) as [[n xs]|] eqn:Htok; [|discriminate].
    now apply loop_body_record.
Qed.

(** The body returns on no other line. *)
Lemma loop_body_return_takes (labels labels' : list label) (line : string) :
  loop_body labels line = Return labels' -> takes line = true.
Proof.
  rewrite loop_body_cases. unfold takes.
  destruct (split (strip line)) as [|c cs] eqn:Htok.
  - intros _. now rewrite (no_tokens_blank _ Htok).
  - destruct (int c) as [n|] eqn:Hint; cbn [bind]; [|discriminate].
    destruct (coords_of cs) as [coords|] eqn:Hc; cbn [bind]; [|discriminate].
    intros _. destruct (coords_of_return_inv _ _ Hc) as (xs & Hxs & Hev & _).
    unfold well_formed, Spec.parsed_tokens. rewrite Htok, Hint, Hxs.
    rewrite Hev. apply orb_true_r.
Qed.

(** The scan returns exactly on lines the loader takes, and then with one
    record per line that is not blank, in the order of the lines. *)
Lemma for_each_return_iff (lines : list string) (labels labels' : list label) :
  for_each loop_body labels lines = Return labels'
  <-> forallb takes lines = true
      /\ labels' = labels ++ omap Spec.record_of lines.
Proof.
  revert labels. induction lines as [|l lines IH]; intros labels.
  - cbn. rewrite app_nil_r. split; [intros [= <-]; now split|].
    now intros [_ ->].
  - cbn [for_each forallb omap list_omap]. split.
    + destruct (loop_body labels l) as [mid|] eqn:E; cbn [bind]; [|discriminate].
      intros Hrest. pose proof (loop_body_return_takes _ _ _ E) as Ht.
      rewrite (loop_body_takes labels l Ht) in E. injection E as <-.
      apply IH in Hrest as [Hall ->]. rewrite Ht. split; [exact Hall|].
      destruct (Spec.record_of l); cbn; now rewrite <- app_assoc.
    + intros [Hall ->]. apply andb_true_iff in Hall as [Ht Hall].
      rewrite (loop_body_takes labels l Ht). cbn [bind]. apply IH.
      split; [exact Hall|].
      destruct (Spec.record_of l); cbn; now rewrite <- app_assoc.
Qed.

Lemma for_each_nonblank (lines : list string) (labels : list label) :
  for_each loop_body labels (List.filter nonblank lines)
  = for_each loop_body labels lines.
Proof.
  revert labels. induction lines as [|l lines IH]; intros labels; [reflexivity|].
  cbn [List.filter for_each]. unfold nonblank at 1.
  destruct (Spec.blank l) eqn:Hb; cbn [negb].
  - rewrite IH. unfold Spec.blank in Hb. apply negb_true_iff in Hb.
    now rewrite (loop_body_blank labels l Hb).
  - cbn [for_each]. destruct (loop_body labels l); cbn [bind]; [apply IH|].
    reflexivity.
Qed.

Lemma all_blank_filter (lines : list string) :
  forallb Spec.blank lines = true -> List.filter nonblank lines = [].
Proof.
  induction lines as [|l lines IH]; [reflexivity|].
  cbn [forallb List.filter]. intros H. apply andb_true_iff in H as [Hl Hrest].
  unfold nonblank at 1. rewrite Hl. now apply IH.
Qed.

(** The body treats the list built so far as a prefix. *)
Lemma loop_body_prefix (labels : list label) (line : string) :
  loop_body labels line
  = (let* r := loop_body [] line in Return (labels ++ r)).
Proof.
  rewrite !loop_body_cases. destruct (split (strip line)) as [|c cs].
  - cbn. now rewrite app_nil_r.
  - destruct (int c); cbn [bind]; [|reflexivity].
    now destruct (coords_of cs).
Qed.

Lemma for_each_prefix (lines : list string) (labels : list label) :
  for_each loop_body labels lines
  = (let* r := for_each loop_body [] lines in Return (labels ++ r)).
Proof.
  revert labels. induction lines as [|l lines IH]; intros labels.
  - cbn. now rewrite app_nil_r.
  - cbn [for_each]. rewrite (loop_body_prefix labels l).
    destruct (loop_body [] l) as [r|]; cbn [bind]; [|reflexivity].
    rewrite (IH (labels ++ r)), (IH r).
    destruct (for_each loop_body [] lines); cbn [bind]; [|reflexivity].
    now rewrite app_assoc.
Qed.

Lemma for_each_app {S A : Type} (body : S -> A -> result S) (s : S)
    (l1 l2 : list A) :
  for_each body s (l1 ++ l2)
  = (let* s' := for_each body s l1 in for_each body s' l2).
Proof.
  revert s. induction l1 as [|a l1 IH]; intros s; [reflexivity|].
  cbn [app for_each]. destruct (body s a); cbn [bind]; [apply IH|reflexivity].
Qed.

Lemma takes_record_nonblank (line : string) :
  takes line = true ->
  match Spec.record_of line with Some _ => 1 | None => 0 end
  = if nonblank line then 1 else 0.
Proof.
  unfold takes, nonblank. intros H. apply orb_true_iff in H as [Hb|Hw].
  - rewrite Hb. unfold Spec.record_of. now rewrite (blank_no_tokens _ Hb).
  - destruct (Spec.blank line) eqn:Hb.
    + now rewrite (blank_not_well_formed _ Hb) in Hw.
    + unfold well_formed in Hw. unfold Spec.record_of.
      now destruct (Spec.parsed_tokens line) as [[n xs]|].
Qed.

Lemma records_nonblank (lines : list string) :
  forallb takes lines = true ->
  length (omap Spec.record_of lines) = Spec.count nonblank lines.
Proof.
  unfold Spec.count. induction lines as [|l lines IH]; [reflexivity|].
  cbn [forallb omap list_omap List.filter]. intros H.
  apply andb_true_iff in H as [Ht Hall].
  pose proof (takes_record_nonblank l Ht) as Hl.
  destruct (Spec.record_of l), (nonblank l); cbn [length];
    try discriminate; rewrite (IH Hall); reflexivity.
Qed.

(** What raises on a line raises whatever the list built so far. *)
Lemma loop_body_raise_any (labels labels' : list label) (line : string)
    (e : exn) :
  loop_body labels line = Raise e -> loop_body labels' line = Raise e.
Proof.
  rewrite (loop_body_prefix labels), (loop_body_prefix labels').
  destruct (loop_body [] line); cbn [bind]; [discriminate | trivial].
Qed.

Lemma loop_body_raise_inv (labels : list label) (line : string) (e : exn) :
  loop_body labels line = Raise e ->
  exists c cs,
    split (strip line) = c :: cs
    /\ ((e = ValueError
         /\ (returns (int c) = false
             \/ exists t, In t cs /\ returns (float t) = false))
        \/ (e = IndexError /\ Nat.odd (length cs) = true)).
Proof.
  rewrite loop_body_cases.
  destruct (split (strip line)) as [|c cs]; [discriminate|].
  intros H. exists c, cs. split; [reflexivity|].
  destruct (int c) as [n|e'] eqn:Hint; cbn [bind] in H.
  - destruct (coords_of cs) as [r|e''] eqn:Hc; cbn [bind] in H; [discriminate|].
    injection H as ->.
    destruct (coords_of_raise_inv _ _ Hc) as [(-> & Ht)|(-> & Hodd)].
    + left. split; [reflexivity | now right].
    + right. now split.
  - injection H as ->. rewrite (int_raises _ _ Hint).
    left. split; [reflexivity | now left].
Qed.

(** The scan raises what the body raises on the first line that the loader
    does not take. *)
Lemma for_each_raise_iff (lines : list string) (labels : list label)
    (e : exn) :
  for_each loop_body labels lines = Raise e
  <-> exists pre line post,
        lines = pre ++ line :: post
        /\ forallb takes pre = true
        /\ loop_body [] line = Raise e.
Proof.
  revert labels. induction lines as [|l lines IH]; intros labels.
  - cbn. split; [discriminate|]. intros (pre & line & post & H & _).
    now destruct pre.
  - cbn [for_each]. split.
    + destruct (loop_body labels l) as [mid|e'] eqn:E; cbn [bind].
      * intros Hrest. apply IH in Hrest as (pre & line & post & -> & Hp & Hl).
        exists (l :: pre), line, post. split; [reflexivity|]. split; [|exact Hl].
        cbn [forallb]. now rewrite (loop_body_return_takes _ _ _ E).
      * intros [= ->]. exists [], l, lines. split; [reflexivity|].
        split; [reflexivity|]. exact (loop_body_raise_any _ _ _ _ E).
    + intros (pre & line & post & Heq & Hp & Hl). destruct pre as [|l' pre].
      * cbn in Heq. injection Heq as -> ->.
        now rewrite (loop_body_raise_any _ labels _ _ Hl).
      * cbn in Heq. injection Heq as -> ->. cbn [forallb] in Hp.
        apply andb_true_iff in Hp as [Ht Hp].
        rewrite (loop_body_takes labels l' Ht). cbn [bind].
        apply IH. now exists pre, line, post.
Qed.

End Loader.

(** X1. On a readable file [load_yolo_labels] returns exactly when it takes
    every line (each is blank, or starts with an integer followed by an
    even number of floats), and what it returns is then the records of the
    lines that are not blank, in the order of the lines. *)
Theorem load_returns_iff (fs : gmap string node) (path : string)
    (lines : list string) (labels : list label) :
  fs !! path = Some (File lines) ->
  load_yolo_labels fs path = Return labels
  <-> forallb takes lines = true /\ labels = omap Spec.record_of lines.
Proof.
  intros Hfile. rewrite (load_file _ _ _ Hfile).
  now rewrite for_each_return_iff.
Qed.

Lemma load_returns_iff_witness :
  load_yolo_labels {[ "labels.txt" := File loose_file ]} "labels.txt"
  = Return [(0%Z, [(f0_1, f0_2); (f0_3, f0_4); (f0_5, f0_6)]);
            (5%Z, []);
            (2%Z, [(f0_1, f0_2); (f1_5, f0_3)])].
Proof.
  apply (proj2 (load_returns_iff {[ "labels.txt" := File loose_file ]}
                  "labels.txt" loose_file _ (lookup_singleton_eq _ _))).
  split; vm_compute; reflexivity.
Defined.

(** X2. Blank lines do not matter: a file and the file without its blank
    lines load alike, with the same records or the same exception. *)
Theorem blank_lines_ignored (fs : gmap string node) (path path' : string)
    (lines : list string) :
  fs !! path = Some (File lines) ->
  fs !! path' = Some (File (List.filter nonblank lines)) ->
  load_yolo_labels fs path' = load_yolo_labels fs path.
Proof.
  intros Hfile Hfile'.
  rewrite (load_file _ _ _ Hfile), (load_file _ _ _ Hfile').
  apply for_each_nonblank.
Qed.

Lemma blank_lines_ignored_witness :
  load_yolo_labels spaced_files "dense.txt"
  = load_yolo_labels spaced_files "spaced.txt".
Proof.
  apply (blank_lines_ignored spaced_files "spaced.txt" "dense.txt" loose_file);
    vm_compute; reflexivity.
Defined.

(** X3. A file without a line that is not blank, the empty file among
    them, loads as the empty list. *)
Theorem blank_file_loads_empty (fs : gmap string node) (path : string)
    (lines : list string) :
  fs !! path = Some (File lines) ->
  forallb Spec.blank lines = true ->
  load_yolo_labels fs path = Return [].
Proof.
  intros Hfile Hblank. rewrite (load_file _ _ _ Hfile).
  rewrite <- for_each_nonblank.
  now rewrite (all_blank_filter _ Hblank).
Qed.

Lemma blank_file_loads_empty_witness :
  load_yolo_labels {[ "labels.txt" := File [] ]} "labels.txt" = Return []
  /\ load_yolo_labels {[ "labels.txt" := File [blank_line; ""] ]} "labels.txt"
     = Return [].
Proof.
  split.
  - apply (blank_file_loads_empty {[ "labels.txt" := File [] ]}
             "labels.txt" []); reflexivity.
  - apply (blank_file_loads_empty {[ "labels.txt" := File [blank_line; ""] ]}
             "labels.txt" [blank_line; ""]); vm_compute; reflexivity.
Defined.

(** X4. Loading composes with the concatenation of files: the file made of
    the lines of one file followed by those of another loads as the
    records of the first followed by those of the second, and raises what
    the first, or else the second, raises. *)
Theorem load_concatenation (fs : gmap string node) (path1 path2 path : string)
    (lines1 lines2 : list string) :
  fs !! path1 = Some (File lines1) ->
  fs !! path2 = Some (File lines2) ->
  fs !! path = Some (File (lines1 ++ lines2)) ->
  load_yolo_labels fs path
  = (let* labels1 := load_yolo_labels fs path1 in
     let* labels2 := load_yolo_labels fs path2 in
     Return (labels1 ++ labels2)).
Proof.
  intros H1 H2 H.
  rewrite (load_file _ _ _ H1), (load_file _ _ _ H2), (load_file _ _ _ H).
  rewrite for_each_app.
  destruct (for_each loop_body [] lines1) as [labels1|]; cbn [bind];
    [|reflexivity].
  apply for_each_prefix.
Qed.

Lemma load_concatenation_witness :
  load_yolo_labels joined_files "ab.txt"
  = (let* labels1 := load_yolo_labels joined_files "a.txt" in
     let* labels2 := load_yolo_labels joined_files "b.txt" in
     Return (labels1 ++ labels2)).
Proof.
  apply (load_concatenation joined_files "a.txt" "b.txt" "ab.txt"
           [triangle_line; blank_line] ["5"; out_of_range_line]);
    vm_compute; reflexivity.
Defined.

(** X5. When [load_yolo_labels] returns, it returns as many records as the
    file has lines that are not blank. *)
Theorem one_record_per_nonblank_line (fs : gmap string node) (path : string)
    (lines : list string) (labels : list label) :
  fs !! path = Some (File lines) ->
  load_yolo_labels fs path = Return labels ->
  length labels = Spec.count nonblank lines.
Proof.
  intros Hfile Hload. rewrite (load_file _ _ _ Hfile) in Hload.
  apply for_each_return_iff in Hload as [Hall ->].
  now apply records_nonblank.
Qed.

Lemma one_record_per_nonblank_line_witness :
  length [(0%Z, [(f0_1, f0_2); (f0_3, f0_4); (f0_5, f0_6)]);
          (5%Z, @nil (pyfloat * pyfloat));
          (2%Z, [(f0_1, f0_2); (f1_5, f0_3)])]
  = Spec.count nonblank loose_file.
Proof.
  apply (one_record_per_nonblank_line {[ "labels.txt" := File loose_file ]}
           "labels.txt" loose_file).
  - apply lookup_singleton_eq.
  - vm_compute; reflexivity.
Defined.

(** X6. What an exception of [load_yolo_labels] on a readable file tells:
    it is a [ValueError] or an [IndexError]; a [ValueError] comes with a
    line whose first token is no integer or one of whose other tokens is no
    float, an [IndexError] with a line that has an odd number of coordinate
    tokens. *)
Theorem load_exception_diagnosis (fs : gmap string node) (path : string)
    (lines : list string) (e : exn) :
  fs !! path = Some (File lines) ->
  load_yolo_labels fs path = Raise e ->
  exists line c cs,
    In line lines
    /\ split (strip line) = c :: cs
    /\ ((e = ValueError
         /\ (returns (int c) = false
             \/ exists t, In t cs /\ returns (float t) = false))
        \/ (e = IndexError /\ Nat.odd (length cs) = true)).
Proof.
  intros Hfile Hload. rewrite (load_file _ _ _ Hfile) in Hload.
  apply for_each_raise_iff in Hload as (pre & line & post & -> & _ & Hl).
  destruct (loop_body_raise_inv _ _ _ Hl) as (c & cs & Htok & Hwhy).
  exists line, c, cs. split; [|now split].
  apply in_or_app. right. now left.
Qed.

Lemma load_exception_diagnosis_witness :
  exists line c cs,
    In line odd_file
    /\ split (strip line) = c :: cs
    /\ ((IndexError = ValueError
         /\ (returns (int c) = false
             \/ exists t, In t cs /\ returns (float t) = false))
        \/ (IndexError = IndexError /\ Nat.odd (length cs) = true)).
Proof.
  apply (load_exception_diagnosis {[ "labels.txt" := File odd_file ]}
           "labels.txt" odd_file IndexError).
  - apply lookup_singleton_eq.
  - vm_compute; reflexivity.
Defined.

(** X7. [load_yolo_labels] raises on a readable file exactly when the file
    has a first line it does not take, and it raises what the loop body
    raises on that line; the records of the lines before are not
    returned. *)
Theorem load_raises_iff (fs : gmap string node) (path : string)
    (lines : list string) (e : exn) :
  fs !! path = Some (File lines) ->
  load_yolo_labels fs path = Raise e
  <-> exists pre line post,
        lines = pre ++ line :: post
        /\ forallb takes pre = true
        /\ loop_body [] line = Raise e.
Proof.
  intros Hfile. rewrite (load_file _ _ _ Hfile). apply for_each_raise_iff.
Qed.

Lemma load_raises_iff_witness :
  load_yolo_labels {[ "labels.txt" := File bad_coord_file ]} "labels.txt"
  = Raise ValueError.
Proof.
  apply (proj2 (load_raises_iff {[ "labels.txt" := File bad_coord_file ]}
                  "labels.txt" bad_coord_file ValueError
                  (lookup_singleton_eq _ _))).
  exists [triangle_line], "1 0.1 0,2 0.3 0.4 0.5 0.6", [triangle_line].
  repeat split; vm_compute; reflexivity.
Defined.

(** * Further properties of the directory script *)

Section ScriptMore.

Variable fs : gmap string node.

(** Entries whose calls return are passed with their two lines of
    output. *)
Lemma script_loop_prefix (loaded : string -> list label)
    (pre rest : list string) :
  (forall name, In name pre -> endswith name ".txt" = true ->
     load_yolo_labels fs (path_join labels_dir name) = Return (loaded name)) ->
  forall out,
    script_loop fs (pre ++ rest) out
    = script_loop fs rest (out ++ flat_map (printed loaded) (matching pre)).
Proof.
  induction pre as [|name pre IH]; intros Hall out.
  - cbn. now rewrite app_nil_r.
  - cbn [app script_loop matching List.filter].
    assert (Hpre : forall n, In n pre -> endswith n ".txt" = true ->
               load_yolo_labels fs (path_join labels_dir n)
               = Return (loaded n))
      by (intros n Hn; apply Hall; now right).
    destruct (endswith name ".txt") eqn:E.
    + rewrite (Hall name (or_introl eq_refl) E), (IH Hpre).
      cbn [flat_map printed]. fold (matching pre).
      now rewrite <- !app_assoc.
    + apply (IH Hpre).
Qed.

Lemma script_loop_matching (entries : list string) (out : list event) :
  script_loop fs (matching entries) out = script_loop fs entries out.
Proof.
  revert out. induction entries as [|name entries IH]; intros out;
    [reflexivity|].
  cbn [matching List.filter script_loop]. fold (matching entries).
  destruct (endswith name ".txt") eqn:E; [|apply IH].
  cbn [script_loop]. rewrite E.
  destruct (load_yolo_labels fs (path_join labels_dir name)); [apply IH|].
  reflexivity.
Qed.

(** The loop prints [Loading] for entries of the listing that end in
    [.txt] only. *)
Lemma script_loop_loading (entries : list string) (out : list event)
    (p : string) :
  In (Loading p) (fst (script_loop fs entries out)) ->
  In (Loading p) out
  \/ exists name, In name entries /\ endswith name ".txt" = true
                  /\ p = path_join labels_dir name.
Proof.
  revert out. induction entries as [|name entries IH]; intros out;
    [now left|].
  cbn [script_loop]. destruct (endswith name ".txt") eqn:E.
  - destruct (load_yolo_labels fs (path_join labels_dir name)) as [labels|e].
    + intros H. destruct (IH _ H) as [Hout|(n & Hn & Hext & ->)].
      * rewrite !in_app_iff in Hout. destruct Hout as [[Hout|Hnew]|Hnew].
        -- now left.
        -- destruct Hnew as [[= <-]|[]]. right. exists name.
           split; [now left | now split].
        -- destruct Hnew as [[=]|[]].
      * right. exists n. split; [now right | now split].
    + cbn [fst]. rewrite in_app_iff. intros [Hout|[[= <-]|[]]]; [now left|].
      right. exists name. split; [now left | now split].
  - intros H. destruct (IH _ H) as [Hout|(n & Hn & Hext & ->)]; [now left|].
    right. exists n. split; [now right | now split].
Qed.

End ScriptMore.

(** X8. The script stops at the first file whose call raises: it has
    printed the two lines of each [.txt] entry before it and the [Loading]
    line of the file, it prints nothing more, and it ends with the
    exception of the call; the entries after the file are not loaded. *)
Theorem script_stops_at_first_failure (fs : gmap string node)
    (loaded : string -> list label) (pre post : list string)
    (name : string) (e : exn) :
  fs !! labels_dir = Some (Dir (pre ++ name :: post)) ->
  (forall n, In n pre -> endswith n ".txt" = true ->
     load_yolo_labels fs (path_join labels_dir n) = Return (loaded n)) ->
  endswith name ".txt" = true ->
  load_yolo_labels fs (path_join labels_dir name) = Raise e ->
  script fs
  = (flat_map (printed loaded) (matching pre)
     ++ [Loading (path_join labels_dir name)], Raise e).
Proof.
  intros Hdir Hpre Hext Hload. unfold script, listdir. rewrite Hdir.
  rewrite (script_loop_prefix fs loaded pre (name :: post) Hpre).
  cbn [script_loop app]. now rewrite Hext, Hload.
Qed.

Lemma script_stops_at_first_failure_witness :
  script broken_dir
  = ([Loading ".labels/a.txt"; Loaded (small_dir_loaded "a.txt");
      Loading ".labels/b.txt"], Raise IndexError).
Proof.
  apply (script_stops_at_first_failure broken_dir small_dir_loaded
           ["a.txt"; "notes.md"] ["c.txt"] "b.txt" IndexError).
  - vm_compute; reflexivity.
  - intros n [<-|[<-|[]]] Hext;
      solve [vm_compute; reflexivity | vm_compute in Hext; discriminate].
  - reflexivity.
  - vm_compute; reflexivity.
Defined.

(** X9. Entries of the listing that do not end in [.txt] have no effect:
    the loop over a listing prints and ends as the loop over its [.txt]
    entries does. *)
Theorem script_skips_other_entries (fs : gmap string node)
    (entries : list string) (out : list event) :
  script_loop fs (matching entries) out = script_loop fs entries out.
Proof. apply script_loop_matching. Qed.

(** X10. The script opens nothing but the [.txt] entries of the directory
    [.labels]: every [Loading] line it prints names the path of such an
    entry in that directory. *)
Theorem script_loads_only_listed_txt (fs : gmap string node) (p : string) :
  In (Loading p) (fst (script fs)) ->
  exists entries name,
    fs !! labels_dir = Some (Dir entries)
    /\ In name entries
    /\ endswith name ".txt" = true
    /\ p = path_join labels_dir name.
Proof.
  unfold script, listdir.
  destruct (fs !! labels_dir) as [[lines|entries|]|] eqn:Hdir;
    try (intros []).
  intros H. destruct (script_loop_loading fs entries [] p H)
    as [[]|(name & Hn & Hext & ->)].
  now exists entries, name.
Qed.

Lemma script_loads_only_listed_txt_witness :
  exists entries name,
    small_dir !! labels_dir = Some (Dir entries)
    /\ In name entries
    /\ endswith name ".txt" = true
    /\ ".labels/b.txt" = path_join labels_dir name.
Proof.
  apply (script_loads_only_listed_txt small_dir ".labels/b.txt").
  vm_compute. right. right. left. reflexivity.
Defined.

(** * The arithmetic of the practice files *)

Section Numbers.
Local Open Scope Z_scope.

Lemma float_of_int_zero : float_of_int 0 = Ok (Finite false 0).
Proof. reflexivity. Qed.


(** The float nearest to an integer that is not zero is not zero. *)
Lemma nearest_of_int (n : Z) (q : Q) :
  0 < n -> nearest_binary64 n 1 = Some q -> Qeq_bool q 0 = false.
Proof.
  intros Hn. unfold nearest_binary64.
  change (Z.log2 1) with 0. rewrite Z.sub_0_r.
  pose proof (Z.log2_nonneg n) as Ha0.
  destruct (Z.log2_spec n Hn) as [Hlow _].
  set (a := Z.log2 n) in *.
  replace (Z.max 0 (- a)) with 0 by lia.
  replace (Z.max 0 a) with a by lia.
  change (2 ^ 0) with 1. rewrite Z.mul_1_r, Z.mul_1_l.
  replace (n <? 2 ^ a) with false by (symmetry; apply Z.ltb_ge; lia).
  set (e := Z.max (a - 52) (-1074)).
  assert (He : e = a - 52) by (unfold e; lia). clearbody e. subst e.
  rewrite !Z.mul_1_l.
  set (num := n * 2 ^ Z.max 0 (- (a - 52))).
  set (den := 2 ^ Z.max 0 (a - 52)).
  assert (Hden : 0 < den) by (unfold den; apply Z.pow_pos_nonneg; lia).
  assert (Hm0 : 1 <= num / den).
  { apply Z.div_le_lower_bound; [exact Hden|]. unfold num, den.
    destruct (Z.le_gt_cases (a - 52) 0) as [Hle|Hgt].
    - replace (Z.max 0 (a - 52)) with 0 by lia. change (2 ^ 0) with 1.
      assert (0 < 2 ^ Z.max 0 (- (a - 52))) by (apply Z.pow_pos_nonneg; lia).
      nia.
    - replace (Z.max 0 (- (a - 52))) with 0 by lia. change (2 ^ 0) with 1.
      replace (Z.max 0 (a - 52)) with (a - 52) by lia.
      assert (2 ^ (a - 52) <= 2 ^ a) by (apply Z.pow_le_mono_r; lia). lia. }
  set (m0 := num / den) in *. set (r := num mod den).
  set (m := if 2 * r <? den then m0
            else if den <? 2 * r then m0 + 1
            else if Z.even m0 then m0 else m0 + 1).
  assert (Hm : 1 <= m)
    by (unfold m; destruct (2 * r <? den), (den <? 2 * r), (Z.even m0); lia).
  clearbody m.
  match goal with |- context [if ?c then None else _] => destruct c end;
    [discriminate|].
  intros [= <-]. apply not_true_is_false. intros Hz.
  apply Qeq_bool_iff in Hz. rewrite Qred_correct in Hz.
  unfold Qeq in Hz. cbn [Qnum Qden] in Hz.
  assert (Hpos : 0 < m * den) by nia. lia.
Qed.

Lemma float_of_int_is_zero (z : Z) (x : pyfloat) :
  float_of_int z = Ok x -> float_is_zero x = (z =? 0).
Proof.
  unfold float_of_int, float_of_decimal.
  destruct (Z.abs z =? 0) eqn:Ez.
  - intros [= <-]. cbn. symmetry. apply Z.eqb_eq. apply Z.eqb_eq in Ez. lia.
  - apply Z.eqb_neq in Ez.
    change (10 ^ Z.max 0 0) with 1. rewrite Z.mul_1_r.
    change (10 ^ Z.max 0 (- 0)) with 1.
    destruct (nearest_binary64 (Z.abs z) 1) as [q|] eqn:Eq; [|discriminate].
    intros [= <-]. cbn. rewrite (nearest_of_int (Z.abs z) q); [|lia|exact Eq].
    symmetry. apply Z.eqb_neq. lia.
Qed.


End Numbers.

(** * Properties of Error_Handling_Practice.py *)

Section Division.

(** X11. [safe_divide] raises [ZeroDivisionError] exactly on a zero divisor:
    for numbers [a] and [b], with [a] in the range of the floats, the call
    raises it when [b] is [0], [0.0] or [-0.0] and at no other [b]. *)
Theorem safe_divide_zero_divisor (a b : value) :
  is_number a = true ->
  is_number b = true ->
  is_ok (to_float a) = true ->
  ErrorHandling.safe_divide a b = Err ZeroDivisionError <-> eq_zero b = true.
Proof.
  unfold ErrorHandling.safe_divide, truediv.
  destruct a as [x|x|s|], b as [y|y|t|]; try discriminate; intros _ _ Hfits.
  - unfold int_truediv. cbn [eq_zero].
    destruct (y =? 0)%Z; [tauto|].
    destruct (x =? 0)%Z; [split; discriminate|].
    destruct (nearest_binary64 _ _); split; discriminate.
  - cbn [to_float] in Hfits. destruct (float_of_int x) as [x'|]; [|discriminate].
    cbn [and_then eq_zero]. unfold float_div.
    destruct (float_is_zero y); [tauto | split; discriminate].
  - cbn [eq_zero]. destruct (float_of_int y) as [y'|e] eqn:Ey; cbn [and_then].
    + unfold float_div. rewrite (float_of_int_is_zero _ _ Ey).
      destruct (y =? 0)%Z; [tauto | split; discriminate].
    + destruct (y =? 0)%Z eqn:E0.
      * apply Z.eqb_eq in E0. subst y. discriminate.
      * unfold float_of_int in Ey. split; [|discriminate].
        destruct (float_of_decimal _ _ _); congruence.
  - cbn [eq_zero]. unfold float_div.
    destruct (float_is_zero y); [tauto | split; discriminate].
Qed.

Lemma safe_divide_zero_divisor_witness :
  ErrorHandling.safe_divide (VInt 10) (VInt 0) = Err ZeroDivisionError
  /\ ErrorHandling.safe_divide (VInt 10) (VInt 2) = Ok (Finite false 5).
Proof.
  split; [|vm_compute; reflexivity].
  apply (proj2 (safe_divide_zero_divisor (VInt 10) (VInt 0)
                  eq_refl eq_refl eq_refl)).
  reflexivity.
Defined.

End Division.

Section AddTwo.

(** X12. [add_two_numbers_from_list] returns exactly when the list has at
    least two elements and [int] converts the first two; it returns their
    sum, and what follows the first two elements is not looked at. *)
Theorem add_two_returns_iff (input : list value) (n : Z) :
  ErrorHandling.add_two_numbers_from_list input = Ok n
  <-> exists a b rest x y,
        input = a :: b :: rest
        /\ to_int a = Ok x /\ to_int b = Ok y /\ n = (x + y)%Z.
Proof.
  unfold ErrorHandling.add_two_numbers_from_list, getitem. split.
  - destruct input as [|a [|b rest]]; cbn; try discriminate.
    + destruct (to_int a); discriminate.
    + destruct (to_int a) as [x|] eqn:Ea; cbn; [|discriminate].
      destruct (to_int b) as [y|] eqn:Eb; cbn; [|discriminate].
      intros [= <-]. now exists a, b, rest, x, y.
  - intros (a & b & rest & x & y & -> & Ea & Eb & ->). cbn.
    now rewrite Ea, Eb.
Qed.

Lemma add_two_returns_iff_witness :
  ErrorHandling.add_two_numbers_from_list [VStr "1"; VStr "2"; VStr "x"]
  = Ok 3%Z.
Proof.
  apply (proj2 (add_two_returns_iff [VStr "1"; VStr "2"; VStr "x"] 3)).
  exists (VStr "1"), (VStr "2"), [VStr "x"], 1%Z, 2%Z.
  repeat split; vm_compute; reflexivity.
Defined.

(** X13. The order of the two numbers does not matter: when the call
    returns a sum, the call with the first two elements exchanged returns
    the same sum. *)
Theorem add_two_commutes (a b : value) (rest rest' : list value) (n : Z) :
  ErrorHandling.add_two_numbers_from_list (a :: b :: rest) = Ok n ->
  ErrorHandling.add_two_numbers_from_list (b :: a :: rest') = Ok n.
Proof.
  unfold ErrorHandling.add_two_numbers_from_list, getitem. cbn.
  destruct (to_int a) as [x|]; cbn; [|discriminate].
  destruct (to_int b) as [y|]; cbn; [|discriminate].
  intros [= <-]. f_equal. lia.
Qed.

Lemma add_two_commutes_witness :
  ErrorHandling.add_two_numbers_from_list [VInt 2; VStr "1"] = Ok 3%Z.
Proof.
  apply (add_two_commutes (VStr "1") (VInt 2) [] [] 3).
  vm_compute; reflexivity.
Defined.

(** X14. What an exception of [add_two_numbers_from_list] tells. On the
    empty list it is [IndexError]; on a list of one element it is the
    exception of [int] on that element, or [IndexError] when the element
    converts; on a longer list it is the exception of [int] on the first
    element, or on the second when the first converts. *)
Theorem add_two_errors (input : list value) (e : exc) :
  ErrorHandling.add_two_numbers_from_list input = Err e ->
  match input with
  | [] => e = Std IndexError
  | [a] => to_int a = Err e \/ (is_ok (to_int a) = true /\ e = Std IndexError)
  | a :: b :: _ =>
      to_int a = Err e \/ (is_ok (to_int a) = true /\ to_int b = Err e)
  end.
Proof.
  unfold ErrorHandling.add_two_numbers_from_list, getitem.
  destruct input as [|a [|b rest]]; cbn.
  - now intros [= <-].
  - destruct (to_int a); cbn; intros [= <-]; [now right | now left].
  - destruct (to_int a); cbn; [|intros [= <-]; now left].
    destruct (to_int b); cbn; [discriminate|]. intros [= <-]. now right.
Qed.

Lemma add_two_errors_witness :
  to_int (VStr "1.5") = Err (Std ValueError)
  \/ (is_ok (to_int (VStr "1.5")) = true
      /\ to_int (VStr "2.5") = Err (Std ValueError)).
Proof.
  apply (add_two_errors [VStr "1.5"; VStr "2.5"] (Std ValueError)).
  vm_compute; reflexivity.
Defined.

End AddTwo.

Section Users.

(** X15. [get_user_name] reads what was stored: after a user's data is
    stored with a name the call returns that name; after [None] is stored
    for the user it raises [TypeError]; after the user is deleted it raises
    [KeyError]; and storing under one id does not change the call for
    another id. *)
Theorem get_user_name_store (users_dict : gmap Z (option (gmap string value)))
    (data : gmap string value) (user_id : Z) (name : value) :
  ErrorHandling.get_user_name
    (<[user_id := Some (<["name" := name]> data)]> users_dict) user_id
  = Ok name
  /\ ErrorHandling.get_user_name (<[user_id := None]> users_dict) user_id
     = Err TypeError
  /\ ErrorHandling.get_user_name (delete user_id users_dict) user_id
     = Err KeyError
  /\ (forall other entry,
        other <> user_id ->
        ErrorHandling.get_user_name (<[user_id := entry]> users_dict) other
        = ErrorHandling.get_user_name users_dict other).
Proof.
  unfold ErrorHandling.get_user_name. repeat split.
  - now rewrite !lookup_insert_eq.
  - now rewrite lookup_insert_eq.
  - now rewrite lookup_delete_eq.
  - intros other entry Hne. now rewrite lookup_insert_ne.
Qed.

End Users.

Section Scores.

Lemma list_comp_app {A B : Type} (f : A -> result B) (l1 l2 : list A) :
  list_comp f (l1 ++ l2)
  = (let* x := list_comp f l1 in
     let* y := list_comp f l2 in
     Return (x ++ y))%py.
Proof.
  induction l1 as [|a l1 IH]; cbn [app list_comp].
  - cbn. now destruct (list_comp f l2).
  - destruct (f a); cbn [bind]; [|reflexivity]. rewrite IH.
    destruct (list_comp f l1); cbn [bind]; [|reflexivity].
    now destruct (list_comp f l2).
Qed.

Lemma list_comp_length {A B : Type} (f : A -> result B) (l : list A)
    (r : list B) :
  list_comp f l = Return r -> length r = length l.
Proof.
  revert r. induction l as [|a l IH]; intros r; cbn [list_comp].
  - now intros [= <-].
  - destruct (f a); cbn [bind]; [|discriminate].
    destruct (list_comp f l) as [bs|]; cbn [bind]; [|discriminate].
    intros [= <-]. cbn. f_equal. now apply IH.
Qed.

Lemma list_comp_raise_inv {A B : Type} (f : A -> result B) (l : list A)
    (e : exn) :
  list_comp f l = Raise e -> exists a, In a l /\ f a = Raise e.
Proof.
  induction l as [|a l IH]; cbn [list_comp]; [discriminate|].
  destruct (f a) as [b|e'] eqn:E; cbn [bind].
  - destruct (list_comp f l); cbn [bind]; [discriminate|].
    intros [= <-]. destruct (IH eq_refl) as (a' & Ha & Hf).
    exists a'. split; [now right | exact Hf].
  - intros [= <-]. exists a. split; [now left | exact E].
Qed.

Lemma list_comp_raises {A B : Type} (f : A -> result B) (l : list A) (a : A) :
  In a l -> returns (f a) = false -> returns (list_comp f l) = false.
Proof.
  induction l as [|a' l IH]; intros Hin Hbad; [destruct Hin|].
  cbn [list_comp]. destruct (f a') as [b|] eqn:E; cbn [bind]; [|reflexivity].
  destruct Hin as [->|Hin]; [now rewrite E in Hbad|].
  specialize (IH Hin Hbad). now destruct (list_comp f l).
Qed.

Lemma split_on_from_length (sep : ascii) (cur s : string) :
  length (split_on_from sep cur s) = S (count_char sep s).
Proof.
  revert cur. induction s as [|c s IH]; intros cur; [reflexivity|].
  cbn [split_on_from count_char]. destruct (c =? sep)%char; cbn [length].
  - now rewrite IH.
  - now rewrite IH.
Qed.

Lemma split_on_from_app (sep : ascii) (cur a b : string) :
  split_on_from sep cur (a ++ String sep b)%string
  = split_on_from sep cur a ++ split_on_from sep EmptyString b.
Proof.
  revert cur. induction a as [|c a IH]; intros cur.
  - change (split_on_from sep cur (String sep b)
            = rev cur :: split_on_from sep EmptyString b).
    cbn [split_on_from]. now rewrite Ascii.eqb_refl.
  - change (split_on_from sep cur (String c (a ++ String sep b)%string)
            = split_on_from sep cur (String c a)
              ++ split_on_from sep EmptyString b).
    cbn [split_on_from].
    destruct (c =? sep)%char; [cbn; f_equal|]; apply IH.
Qed.

(** X16. When [parse_scores] returns, it returns one score more than the
    string has commas; it never returns the empty list. *)
Theorem parse_scores_length (input_str : string) (scores : list Z) :
  ErrorHandling.parse_scores input_str = Return scores ->
  length scores = S (count_char "," input_str).
Proof.
  unfold ErrorHandling.parse_scores. intros H.
  rewrite (list_comp_length _ _ _ H). apply split_on_from_length.
Qed.

Lemma parse_scores_length_witness :
  length [80; 75; 90]%Z = S (count_char "," "80,75,90").
Proof.
  apply (parse_scores_length "80,75,90" [80; 75; 90]%Z).
  vm_compute; reflexivity.
Defined.

(** X17. [parse_scores] composes with joining by a comma: the scores of
    [a + "," + b] are the scores of [a] followed by those of [b], and the
    call raises when the call on [a], or else on [b], raises. *)
Theorem parse_scores_concat (a b : string) :
  ErrorHandling.parse_scores (a ++ String "," b)%string
  = (let* x := ErrorHandling.parse_scores a in
     let* y := ErrorHandling.parse_scores b in
     Return (x ++ y))%py.
Proof.
  unfold ErrorHandling.parse_scores, split_on.
  rewrite split_on_from_app. apply list_comp_app.
Qed.

(** X18. [parse_scores] raises exactly when a piece between two commas is
    no integer once stripped (an empty piece among them, so also on the
    empty string and after a trailing comma), and it raises [ValueError]
    and nothing else. *)
Theorem parse_scores_raises_iff (input_str : string) (e : exn) :
  ErrorHandling.parse_scores input_str = Raise e
  <-> e = ValueError
      /\ exists piece, In piece (split_on "," input_str)
                       /\ returns (int (strip piece)) = false.
Proof.
  unfold ErrorHandling.parse_scores. split.
  - intros H. destruct (list_comp_raise_inv _ _ _ H) as (piece & Hin & Hf).
    split; [exact (int_raises _ _ Hf)|].
    exists piece. split; [exact Hin | now rewrite Hf].
  - intros (-> & piece & Hin & Hbad).
    pose proof (list_comp_raises (fun x => int (strip x)) _ piece Hin Hbad) as H.
    destruct (list_comp _ _) as [r|e] eqn:E; [discriminate|].
    destruct (list_comp_raise_inv _ _ _ E) as (p' & _ & Hf).
    now rewrite (int_raises _ _ Hf).
Qed.

Lemma parse_scores_raises_iff_witness :
  ErrorHandling.parse_scores "" = Raise ValueError
  /\ ErrorHandling.parse_scores "80,abc,90" = Raise ValueError.
Proof.
  split.
  - apply (proj2 (parse_scores_raises_iff "" ValueError)).
    split; [reflexivity|]. exists "". split; [now left | reflexivity].
  - apply (proj2 (parse_scores_raises_iff "80,abc,90" ValueError)).
    split; [reflexivity|]. exists "abc".
    split; [right; now left | reflexivity].
Defined.

End Scores.

Section Average.

Local Instance flip_le_total : Total (flip Z.le).
Proof. intros x y. unfold flip. lia. Qed.

(** X19. [compute_average] never returns: on every list of scores and every
    [n] it raises [TypeError], from [range[n]]; and it leaves the caller's
    list changed, sorted from the highest score to the lowest, with the
    same scores. *)
Theorem compute_average_always_raises (scores : list Z) (n : value) :
  snd (ErrorHandling.compute_average scores n) = Err TypeError
  /\ Sorted (flip Z.le) (fst (ErrorHandling.compute_average scores n))
  /\ Permutation (fst (ErrorHandling.compute_average scores n)) scores.
Proof.
  unfold ErrorHandling.compute_average, sort_reverse. cbn [fst snd].
  split; [reflexivity|]. split.
  - apply Sorted_merge_sort. exact flip_le_total.
  - apply merge_sort_Permutation.
Qed.

(** X20. [process_student] never prints an average and never returns: it
    raises [ValueError] when the scores do not parse and [TypeError], from
    [compute_average], when they do. *)
Theorem process_student_never_prints (input_str : string) (n : value) :
  fst (ErrorHandling.process_student input_str n) = []
  /\ snd (ErrorHandling.process_student input_str n)
     = if returns (ErrorHandling.parse_scores input_str)
       then Err TypeError else Err (Std ValueError).
Proof.
  unfold ErrorHandling.process_student.
  destruct (ErrorHandling.parse_scores input_str) as [scores|e] eqn:E.
  - destruct (compute_average_always_raises scores n) as [-> _]. now split.
  - cbn. split; [reflexivity|].
    assert (H : ErrorHandling.parse_scores input_str = Raise e) by exact E.
    apply parse_scores_raises_iff in H as [-> _]. reflexivity.
Qed.

End Average.

(** * Properties of Logging_Practice.py *)

Section LoggingProps.







End LoggingProps.
